(** * ReplayMerge: the replay-to-live merge state machine of the archive client

    A shallow embedding of
    [aeron-archive/src/main/cpp/client/ReplayMerge.cpp].

    The object's members are a record that every member function takes and
    returns; the collaborators it writes to (the subscription's destination
    calls, the archive proxy's accepted requests) are a second record, the
    [World]; what the collaborators answer during one call (the poller, the
    subscription, the image, the correlation-id source) is the [Env] of that
    call.  A member function that throws leaves the members as they were at
    the [throw], so a [Run] carries the members and the world in both of its
    cases. *)

From Stdlib Require Import ZArith List String Bool Lia DecimalString.
Import ListNotations.

Local Open Scope string_scope.
Local Open Scope Z_scope.

(** ** Values shared with the collaborators *)

(** [std::to_string] on a signed integer: decimal digits, a leading minus
    sign for negative values. *)
Definition to_string (z : Z) : string := NilZero.string_of_int (Z.to_int z).

(** [static_cast<std::int32_t>] of a 64-bit value: reduction modulo 2^32 into
    the signed range. *)
Definition static_cast_int32 (z : Z) : Z :=
  (z + 2 ^ 31) mod 2 ^ 32 - 2 ^ 31.

(** [std::numeric_limits<std::int64_t>::max()]. *)
Definition INT64_MAX : Z := 2 ^ 63 - 1.

(** A channel URI in parsed form: its media and its parameters in order.
    [ChannelUri::parse] and [toString] are the client library's; channels are
    kept here as what [parse] yields, and a request carries the URI it would
    print. *)
Record ChannelUri := mkChannelUri {
  uri_media : string;
  uri_params : list (string * string)
}.

Fixpoint params_get (key : string) (ps : list (string * string)) : string :=
  match ps with
  | [] => EmptyString
  | (k, v) :: rest => if String.eqb k key then v else params_get key rest
  end.

Fixpoint params_put (key value : string) (ps : list (string * string))
  : list (string * string) :=
  match ps with
  | [] => [(key, value)]
  | (k, v) :: rest =>
      if String.eqb k key then (k, value) :: rest
      else (k, v) :: params_put key value rest
  end.

(** [ChannelUri::get]: the value of a parameter, the empty string when the
    parameter is absent. *)
Definition ChannelUri_get (uri : ChannelUri) (key : string) : string :=
  params_get key (uri_params uri).

(** [ChannelUri::put]. *)
Definition ChannelUri_put (key value : string) (uri : ChannelUri) : ChannelUri :=
  mkChannelUri (uri_media uri) (params_put key value (uri_params uri)).

(** ** Exceptions *)

Inductive Exception :=
| IllegalArgumentException (what : string)
| TimeoutException (what : string)
| ArchiveException (errorCode : Z) (what : string).

Inductive Completion (A : Type) :=
| Returned (a : A)
| Threw (ex : Exception).
Arguments Returned {A} a.
Arguments Threw {A} ex.

(** ** The merge state *)

Inductive State :=
| GET_RECORDING_POSITION
| REPLAY
| CATCHUP
| ATTEMPT_LIVE_JOIN
| STOP_REPLAY
| MERGED
| CLOSED.

Definition State_eqb (a b : State) : bool :=
  match a, b with
  | GET_RECORDING_POSITION, GET_RECORDING_POSITION
  | REPLAY, REPLAY
  | CATCHUP, CATCHUP
  | ATTEMPT_LIVE_JOIN, ATTEMPT_LIVE_JOIN
  | STOP_REPLAY, STOP_REPLAY
  | MERGED, MERGED
  | CLOSED, CLOSED => true
  | _, _ => false
  end.

(** Modelled from the spec: the enumerators of [State] are declared in
    ReplayMerge.h, which is not among the sources; their order, and so the
    number [std::to_string(m_state)] prints, is the order in which the spec
    lists the set of merge states. *)
Definition State_ordinal (s : State) : Z :=
  match s with
  | GET_RECORDING_POSITION => 0
  | REPLAY => 1
  | CATCHUP => 2
  | ATTEMPT_LIVE_JOIN => 3
  | STOP_REPLAY => 4
  | MERGED => 5
  | CLOSED => 6
  end.

(** An image is held by reference ([std::shared_ptr<Image>]): the members
    keep its identity, its position and closed flag are read from the
    environment at each call. *)
Definition ImageId := Z.

Record Image := mkImage {
  position : Z;
  isClosed : bool
}.

Record ReplayMerge := mkReplayMerge {
  m_replayChannel : ChannelUri;
  m_replayDestination : string;
  m_liveDestination : string;
  m_recordingId : Z;
  m_startPosition : Z;
  m_mergeProgressTimeoutMs : Z;
  m_state : State;
  m_image : option ImageId;
  m_activeCorrelationId : Z;
  m_nextTargetPosition : Z;
  m_positionOfLastProgress : Z;
  m_replaySessionId : Z;
  m_timeOfLastProgressMs : Z;
  m_isLiveAdded : bool;
  m_isReplayActive : bool
}.

(** Assignments to single members. *)
Definition set_state (s : State) (rm : ReplayMerge) : ReplayMerge :=
  mkReplayMerge (m_replayChannel rm) (m_replayDestination rm)
    (m_liveDestination rm) (m_recordingId rm) (m_startPosition rm)
    (m_mergeProgressTimeoutMs rm) s (m_image rm) (m_activeCorrelationId rm)
    (m_nextTargetPosition rm) (m_positionOfLastProgress rm)
    (m_replaySessionId rm) (m_timeOfLastProgressMs rm) (m_isLiveAdded rm)
    (m_isReplayActive rm).

Definition set_image (i : option ImageId) (rm : ReplayMerge) : ReplayMerge :=
  mkReplayMerge (m_replayChannel rm) (m_replayDestination rm)
    (m_liveDestination rm) (m_recordingId rm) (m_startPosition rm)
    (m_mergeProgressTimeoutMs rm) (m_state rm) i (m_activeCorrelationId rm)
    (m_nextTargetPosition rm) (m_positionOfLastProgress rm)
    (m_replaySessionId rm) (m_timeOfLastProgressMs rm) (m_isLiveAdded rm)
    (m_isReplayActive rm).

Definition set_activeCorrelationId (c : Z) (rm : ReplayMerge) : ReplayMerge :=
  mkReplayMerge (m_replayChannel rm) (m_replayDestination rm)
    (m_liveDestination rm) (m_recordingId rm) (m_startPosition rm)
    (m_mergeProgressTimeoutMs rm) (m_state rm) (m_image rm) c
    (m_nextTargetPosition rm) (m_positionOfLastProgress rm)
    (m_replaySessionId rm) (m_timeOfLastProgressMs rm) (m_isLiveAdded rm)
    (m_isReplayActive rm).

Definition set_nextTargetPosition (p : Z) (rm : ReplayMerge) : ReplayMerge :=
  mkReplayMerge (m_replayChannel rm) (m_replayDestination rm)
    (m_liveDestination rm) (m_recordingId rm) (m_startPosition rm)
    (m_mergeProgressTimeoutMs rm) (m_state rm) (m_image rm)
    (m_activeCorrelationId rm) p (m_positionOfLastProgress rm)
    (m_replaySessionId rm) (m_timeOfLastProgressMs rm) (m_isLiveAdded rm)
    (m_isReplayActive rm).

Definition set_positionOfLastProgress (p : Z) (rm : ReplayMerge) : ReplayMerge :=
  mkReplayMerge (m_replayChannel rm) (m_replayDestination rm)
    (m_liveDestination rm) (m_recordingId rm) (m_startPosition rm)
    (m_mergeProgressTimeoutMs rm) (m_state rm) (m_image rm)
    (m_activeCorrelationId rm) (m_nextTargetPosition rm) p
    (m_replaySessionId rm) (m_timeOfLastProgressMs rm) (m_isLiveAdded rm)
    (m_isReplayActive rm).

Definition set_replaySessionId (s : Z) (rm : ReplayMerge) : ReplayMerge :=
  mkReplayMerge (m_replayChannel rm) (m_replayDestination rm)
    (m_liveDestination rm) (m_recordingId rm) (m_startPosition rm)
    (m_mergeProgressTimeoutMs rm) (m_state rm) (m_image rm)
    (m_activeCorrelationId rm) (m_nextTargetPosition rm)
    (m_positionOfLastProgress rm) s (m_timeOfLastProgressMs rm)
    (m_isLiveAdded rm) (m_isReplayActive rm).

Definition set_timeOfLastProgressMs (t : Z) (rm : ReplayMerge) : ReplayMerge :=
  mkReplayMerge (m_replayChannel rm) (m_replayDestination rm)
    (m_liveDestination rm) (m_recordingId rm) (m_startPosition rm)
    (m_mergeProgressTimeoutMs rm) (m_state rm) (m_image rm)
    (m_activeCorrelationId rm) (m_nextTargetPosition rm)
    (m_positionOfLastProgress rm) (m_replaySessionId rm) t
    (m_isLiveAdded rm) (m_isReplayActive rm).

Definition set_isLiveAdded (b : bool) (rm : ReplayMerge) : ReplayMerge :=
  mkReplayMerge (m_replayChannel rm) (m_replayDestination rm)
    (m_liveDestination rm) (m_recordingId rm) (m_startPosition rm)
    (m_mergeProgressTimeoutMs rm) (m_state rm) (m_image rm)
    (m_activeCorrelationId rm) (m_nextTargetPosition rm)
    (m_positionOfLastProgress rm) (m_replaySessionId rm)
    (m_timeOfLastProgressMs rm) b (m_isReplayActive rm).

Definition set_isReplayActive (b : bool) (rm : ReplayMerge) : ReplayMerge :=
  mkReplayMerge (m_replayChannel rm) (m_replayDestination rm)
    (m_liveDestination rm) (m_recordingId rm) (m_startPosition rm)
    (m_mergeProgressTimeoutMs rm) (m_state rm) (m_image rm)
    (m_activeCorrelationId rm) (m_nextTargetPosition rm)
    (m_positionOfLastProgress rm) (m_replaySessionId rm)
    (m_timeOfLastProgressMs rm) (m_isLiveAdded rm) b.

(** ** The collaborators *)

(** Calls made on the subscription. *)
Inductive SubscriptionCall :=
| AddDestination (endpointChannel : string)
| RemoveDestination (endpointChannel : string).

(** Requests the archive proxy accepted. *)
Inductive ControlRequest :=
| GetRecordingPositionRequest (recordingId correlationId controlSessionId : Z)
| GetStopPositionRequest (recordingId correlationId controlSessionId : Z)
| ReplayRequest (recordingId position length : Z) (replayChannel : ChannelUri)
    (replayStreamId correlationId controlSessionId : Z)
| StopReplayRequest (replaySessionId correlationId controlSessionId : Z).

(** What the object has done to its collaborators, newest first. *)
Record World := mkWorld {
  destinationCalls : list SubscriptionCall;
  requests : list ControlRequest
}.

Definition subscription_call (c : SubscriptionCall) (w : World) : World :=
  mkWorld (c :: destinationCalls w) (requests w).

Definition enqueue (r : ControlRequest) (w : World) : World :=
  mkWorld (destinationCalls w) (r :: requests w).

(** The control response poller after [poll()]: the fragment count [poll]
    returned and the accessors of the response it decoded. *)
Record ControlResponsePoller := mkPoller {
  poll : Z;
  isPollComplete : bool;
  poller_controlSessionId : Z;
  poller_correlationId : Z;
  isCodeError : bool;
  relevantId : Z;
  errorMessage : string
}.

(** What the collaborators answer during one call of a member function.
    Every member function draws at most one correlation id and offers at
    most one request per call, so one answer of each kind is enough. *)
Record Env := mkEnv {
  epochClock : Z;
  aeron_isClosed : bool;
  nextCorrelationId : Z;
  controlSessionId : Z;
  offer : bool;
  controlResponsePoller : ControlResponsePoller;
  channel : ChannelUri;
  streamId : Z;
  isConnected : bool;
  imageBySessionId : Z -> option ImageId;
  image : ImageId -> Image
}.

(** An archive proxy call: [true] and the request enqueued, or [false] and
    nothing sent. *)
Definition archiveProxy (r : ControlRequest) (e : Env) (w : World) : bool * World :=
  if offer e then (true, enqueue r w) else (false, w).

(** The result of one call of a member function: the work count and the
    members and world it leaves, or the exception and the members and world
    at the [throw]. *)
Inductive Run :=
| Done (workCount : Z) (rm : ReplayMerge) (w : World)
| Raise (ex : Exception) (rm : ReplayMerge) (w : World).

Definition run_members (r : Run) : ReplayMerge :=
  match r with Done _ rm _ | Raise _ rm _ => rm end.

Definition run_world (r : Run) : World :=
  match r with Done _ _ w | Raise _ _ w => w end.

(** ** Declarations of ReplayMerge.h and of the client library

    The header and the client library are not among the sources.  Their
    constants and the two join predicates are parameters of the
    development. *)
Class Declarations := {
  NULL_VALUE : Z;
  NULL_POSITION : Z;
  MDC_CONTROL_MODE_PARAM_NAME : string;
  MDC_CONTROL_MODE_MANUAL : string;
  LINGER_PARAM_NAME : string;
  EOS_PARAM_NAME : string;
  shouldAddLiveDestination : ReplayMerge -> Env -> Z -> bool;
  shouldStopAndRemoveReplay : ReplayMerge -> Env -> Z -> bool
}.

(** ** The member functions *)

Section Members.
Context {decls : Declarations}.

(** Modelled from the spec: the setter [state(State)] is an inline member of
    ReplayMerge.h, which is not among the sources; it assigns [m_state]
    ("finally set state to CLOSED"). *)
Definition state (s : State) (rm : ReplayMerge) : ReplayMerge := set_state s rm.

(** Modelled from the spec: [hasProgressStalled] is an inline member of
    ReplayMerge.h, which is not among the sources; the spec's stall test is
    "now - progressClock > progressTimeoutDuration". *)
Definition hasProgressStalled (rm : ReplayMerge) (nowMs : Z) : bool :=
  m_mergeProgressTimeoutMs rm <? nowMs - m_timeOfLastProgressMs rm.

(** Modelled from the spec: the default member initialisers are in
    ReplayMerge.h, which is not among the sources.  The machine starts in
    GET_RECORDING_POSITION with no request outstanding, no image resolved,
    no replay active and the live destination not added; positions and the
    replay session id start at the sentinel. *)
Definition initial_members
    (replayChannel : ChannelUri) (replayDestination liveDestination : string)
    (recordingId startPosition mergeProgressTimeoutMs timeOfLastProgressMs : Z)
  : ReplayMerge :=
  mkReplayMerge replayChannel replayDestination liveDestination recordingId
    startPosition mergeProgressTimeoutMs GET_RECORDING_POSITION None
    NULL_VALUE NULL_VALUE NULL_VALUE NULL_VALUE timeOfLastProgressMs false
    false.

(** [ReplayMerge::ReplayMerge].  The member initialisers run first (the clock
    is read there), then the control mode of the subscription's channel is
    checked, then the replay destination is added. *)
Definition ReplayMerge_new
    (replayChannel : ChannelUri) (replayDestination liveDestination : string)
    (recordingId startPosition mergeProgressTimeoutMs : Z)
    (e : Env) (w : World) : Completion ReplayMerge * World :=
  let rm := initial_members replayChannel replayDestination liveDestination
              recordingId startPosition mergeProgressTimeoutMs (epochClock e) in
  let subscriptionChannelUri := channel e in
  if negb (String.eqb (ChannelUri_get subscriptionChannelUri MDC_CONTROL_MODE_PARAM_NAME)
                      MDC_CONTROL_MODE_MANUAL)
  then
    (Threw (IllegalArgumentException
              ("subscription channel must be manual control mode: mode=" ++
               ChannelUri_get subscriptionChannelUri MDC_CONTROL_MODE_PARAM_NAME)),
     w)
  else
    (Returned rm, subscription_call (AddDestination (m_replayDestination rm)) w).

(** [ReplayMerge::~ReplayMerge]. *)
Definition ReplayMerge_delete (rm : ReplayMerge) (e : Env) (w : World)
  : ReplayMerge * World :=
  if negb (State_eqb CLOSED (m_state rm)) then
    let '(rm1, w1) :=
      if negb (aeron_isClosed e) then
        let w1 :=
          if negb (State_eqb MERGED (m_state rm)) &&
             negb (State_eqb STOP_REPLAY (m_state rm))
          then subscription_call (RemoveDestination (m_replayDestination rm)) w
          else w in
        if m_isReplayActive rm then
          let rm1 := set_isReplayActive false rm in
          let correlationId := nextCorrelationId e in
          (rm1, snd (archiveProxy
                       (StopReplayRequest (m_replaySessionId rm1) correlationId
                          (controlSessionId e)) e w1))
        else (rm, w1)
      else (rm, w) in
    (state CLOSED rm1, w1)
  else (rm, w).

(** [ReplayMerge::pollForResponse]. *)
Definition pollForResponse (e : Env) (correlationId : Z) : Completion bool :=
  let poller := controlResponsePoller e in
  if (0 <? poll poller) && isPollComplete poller then
    if (poller_controlSessionId poller =? controlSessionId e) &&
       (poller_correlationId poller =? correlationId)
    then
      if isCodeError poller then
        Threw (ArchiveException (static_cast_int32 (relevantId poller))
                 ("archive response for correlationId=" ++ to_string correlationId ++
                  ", error: " ++ errorMessage poller))
      else Returned true
    else Returned false
  else Returned false.

(** [ReplayMerge::getRecordingPosition]. *)
Definition getRecordingPosition (nowMs : Z) (rm : ReplayMerge) (e : Env) (w : World)
  : Run :=
  if NULL_VALUE =? m_activeCorrelationId rm then
    let correlationId := nextCorrelationId e in
    let '(sent, w1) :=
      archiveProxy (GetRecordingPositionRequest (m_recordingId rm) correlationId
                      (controlSessionId e)) e w in
    if sent then
      Done 1 (set_activeCorrelationId correlationId
                (set_timeOfLastProgressMs nowMs rm)) w1
    else Done 0 rm w1
  else
    match pollForResponse e (m_activeCorrelationId rm) with
    | Threw ex => Raise ex rm w
    | Returned false => Done 0 rm w
    | Returned true =>
        let rm1 := set_nextTargetPosition (relevantId (controlResponsePoller e)) rm in
        let rm2 := set_activeCorrelationId NULL_VALUE rm1 in
        if NULL_POSITION =? m_nextTargetPosition rm2 then
          let correlationId := nextCorrelationId e in
          let '(sent, w1) :=
            archiveProxy (GetStopPositionRequest (m_recordingId rm2) correlationId
                            (controlSessionId e)) e w in
          if sent then
            Done (1 + 1) (set_activeCorrelationId correlationId
                            (set_timeOfLastProgressMs nowMs rm2)) w1
          else Done 1 rm2 w1
        else
          Done 1 (state REPLAY (set_timeOfLastProgressMs nowMs rm2)) w
    end.

(** [ReplayMerge::replay]. *)
Definition replay (nowMs : Z) (rm : ReplayMerge) (e : Env) (w : World) : Run :=
  if NULL_VALUE =? m_activeCorrelationId rm then
    let correlationId := nextCorrelationId e in
    let channelUri :=
      ChannelUri_put EOS_PARAM_NAME "false"
        (ChannelUri_put LINGER_PARAM_NAME "0" (m_replayChannel rm)) in
    let '(sent, w1) :=
      archiveProxy (ReplayRequest (m_recordingId rm) (m_startPosition rm) INT64_MAX
                      channelUri (streamId e) correlationId (controlSessionId e))
        e w in
    if sent then
      Done 1 (set_activeCorrelationId correlationId
                (set_timeOfLastProgressMs nowMs rm)) w1
    else Done 0 rm w1
  else
    match pollForResponse e (m_activeCorrelationId rm) with
    | Threw ex => Raise ex rm w
    | Returned false => Done 0 rm w
    | Returned true =>
        let rm1 := set_isReplayActive true rm in
        let rm2 := set_replaySessionId (relevantId (controlResponsePoller e)) rm1 in
        let rm3 := set_timeOfLastProgressMs nowMs rm2 in
        let rm4 := set_activeCorrelationId NULL_VALUE rm3 in
        Done 1 (state CATCHUP rm4) w
    end.

(** The first statement of [ReplayMerge::catchup]: resolving the image once
    the subscription is connected. *)
Definition catchup_resolve (nowMs : Z) (rm : ReplayMerge) (e : Env) : ReplayMerge :=
  match m_image rm with
  | None =>
      if isConnected e then
        let rm1 := set_timeOfLastProgressMs nowMs rm in
        let rm2 := set_image (imageBySessionId e
                                (static_cast_int32 (m_replaySessionId rm1))) rm1 in
        set_positionOfLastProgress
          (match m_image rm2 with
           | Some i => position (image e i)
           | None => NULL_VALUE
           end) rm2
      else rm
  | Some _ => rm
  end.

(** [ReplayMerge::catchup]. *)
Definition catchup (nowMs : Z) (rm : ReplayMerge) (e : Env) (w : World) : Run :=
  let rm1 := catchup_resolve nowMs rm e in
  match m_image rm1 with
  | Some i =>
      if m_nextTargetPosition rm1 <=? position (image e i) then
        Done 1 (state ATTEMPT_LIVE_JOIN
                  (set_activeCorrelationId NULL_VALUE
                     (set_timeOfLastProgressMs nowMs rm1))) w
      else if isClosed (image e i) then
        Raise (TimeoutException "ReplayMerge Image closed unexpectedly.") rm1 w
      else if m_positionOfLastProgress rm1 <? position (image e i) then
        Done 0 (set_positionOfLastProgress (position (image e i))
                  (set_timeOfLastProgressMs nowMs rm1)) w
      else Done 0 rm1 w
  | None => Done 0 rm1 w
  end.

(** [ReplayMerge::attemptLiveJoin]. *)
Definition attemptLiveJoin (nowMs : Z) (rm : ReplayMerge) (e : Env) (w : World) : Run :=
  if NULL_VALUE =? m_activeCorrelationId rm then
    let correlationId := nextCorrelationId e in
    let '(sent, w1) :=
      archiveProxy (GetRecordingPositionRequest (m_recordingId rm) correlationId
                      (controlSessionId e)) e w in
    if sent then
      Done 1 (set_activeCorrelationId correlationId
                (set_timeOfLastProgressMs nowMs rm)) w1
    else Done 0 rm w1
  else
    match pollForResponse e (m_activeCorrelationId rm) with
    | Threw ex => Raise ex rm w
    | Returned false => Done 0 rm w
    | Returned true =>
        let rm1 := set_nextTargetPosition (relevantId (controlResponsePoller e)) rm in
        let rm2 := set_activeCorrelationId NULL_VALUE rm1 in
        if NULL_POSITION =? m_nextTargetPosition rm2 then
          let correlationId := nextCorrelationId e in
          let '(sent, w1) :=
            archiveProxy (GetRecordingPositionRequest (m_recordingId rm2)
                            correlationId (controlSessionId e)) e w in
          if sent then
            Done 1 (set_activeCorrelationId correlationId
                      (set_timeOfLastProgressMs nowMs rm2)) w1
          else Done 1 rm2 w1
        else
          match m_image rm2 with
          | Some i =>
              let position := position (image e i) in
              if shouldAddLiveDestination rm2 e position then
                Done 1 (state CATCHUP
                          (set_isLiveAdded true
                             (set_timeOfLastProgressMs nowMs rm2)))
                  (subscription_call (AddDestination (m_liveDestination rm2)) w)
              else if shouldStopAndRemoveReplay rm2 e position then
                Done 1 (state STOP_REPLAY (set_timeOfLastProgressMs nowMs rm2))
                  (subscription_call (RemoveDestination (m_replayDestination rm2)) w)
              else Done 1 (state CATCHUP rm2) w
          | None => Done 1 (state CATCHUP rm2) w
          end
    end.

(** [ReplayMerge::stopReplay]. *)
Definition stopReplay (rm : ReplayMerge) (e : Env) (w : World) : Run :=
  let correlationId := nextCorrelationId e in
  let '(sent, w1) :=
    archiveProxy (StopReplayRequest (m_replaySessionId rm) correlationId
                    (controlSessionId e)) e w in
  if sent then Done 1 (state MERGED (set_isReplayActive false rm)) w1
  else Done 0 rm w1.

(** The message of the stall exception. *)
Definition stall_message (s : State) : string :=
  "ReplayMerge no progress state=" ++ to_string (State_ordinal s).

(** [ReplayMerge::checkProgress]. *)
Definition checkProgress (rm : ReplayMerge) (nowMs : Z) : Completion unit :=
  if hasProgressStalled rm nowMs
  then Threw (TimeoutException (stall_message (m_state rm)))
  else Returned tt.

(** Modelled from the spec: the dispatcher [step(now)] (the header's duty
    cycle entry point) is in ReplayMerge.h, which is not among the sources.
    Each state runs its own member function; MERGED and CLOSED perform no
    work; the stall check is a separate call of the host loop. *)
Definition step (nowMs : Z) (rm : ReplayMerge) (e : Env) (w : World) : Run :=
  match m_state rm with
  | GET_RECORDING_POSITION => getRecordingPosition nowMs rm e w
  | REPLAY => replay nowMs rm e w
  | CATCHUP => catchup nowMs rm e w
  | ATTEMPT_LIVE_JOIN => attemptLiveJoin nowMs rm e w
  | STOP_REPLAY => stopReplay rm e w
  | MERGED | CLOSED => Done 0 rm w
  end.

(** ** Call sequences *)

(** What the host does with the object: a step at a time with the answers of
    the collaborators during it, or the teardown. *)
Inductive Call :=
| Step (nowMs : Z) (e : Env)
| Close (e : Env).

Definition call (c : Call) (s : ReplayMerge * World) : ReplayMerge * World :=
  match c with
  | Step nowMs e =>
      let r := step nowMs (fst s) e (snd s) in (run_members r, run_world r)
  | Close e => ReplayMerge_delete (fst s) e (snd s)
  end.

(** The calls of a list in order; an exception out of a step does not end
    the sequence, the host may go on to close. *)
Definition calls (cs : list Call) (s : ReplayMerge * World) : ReplayMerge * World :=
  fold_left (fun s c => call c s) cs s.

End Members.

(** ** Notions used by the statements *)

Section Notions.
Context {decls : Declarations}.

(** The poller holds a completed response addressed to this control session
    and this correlation id: the two tests of [pollForResponse] before it
    looks at the response code. *)
Definition response_matches (e : Env) (correlationId : Z) : bool :=
  let poller := controlResponsePoller e in
  (0 <? poll poller) && isPollComplete poller &&
  ((poller_controlSessionId poller =? controlSessionId e) &&
   (poller_correlationId poller =? correlationId)).

(** The exception [pollForResponse] builds for an error response. *)
Definition response_error (e : Env) (correlationId : Z) : Exception :=
  ArchiveException (static_cast_int32 (relevantId (controlResponsePoller e)))
    ("archive response for correlationId=" ++ to_string correlationId ++
     ", error: " ++ errorMessage (controlResponsePoller e)).

(** Requests whose response the machine waits for; a stop-replay request is
    sent and forgotten. *)
Definition awaits_response (r : ControlRequest) : bool :=
  match r with
  | StopReplayRequest _ _ _ => false
  | _ => true
  end.

Definition is_stop_replay (r : ControlRequest) : bool := negb (awaits_response r).

Definition awaited_requests (w : World) : Z :=
  Z.of_nat (List.length (filter awaits_response (requests w))).

Definition stop_replay_requests (w : World) : Z :=
  Z.of_nat (List.length (filter is_stop_replay (requests w))).

Definition is_removal_of (destination : string) (c : SubscriptionCall) : bool :=
  match c with
  | RemoveDestination d => String.eqb d destination
  | AddDestination _ => false
  end.

Definition removals_of (destination : string) (w : World) : Z :=
  Z.of_nat (List.length (filter (is_removal_of destination) (destinationCalls w))).

(** The correlation id a request carries. *)
Definition request_correlationId (r : ControlRequest) : Z :=
  match r with
  | GetRecordingPositionRequest _ correlationId _
  | GetStopPositionRequest _ correlationId _
  | ReplayRequest _ _ _ _ _ correlationId _
  | StopReplayRequest _ correlationId _ => correlationId
  end.

(** One when [m_activeCorrelationId] holds a correlation id, zero when it
    holds the sentinel. *)
Definition outstanding (rm : ReplayMerge) : Z :=
  if NULL_VALUE =? m_activeCorrelationId rm then 0 else 1.

(** CATCHUP and STOP_REPLAY are entered with no request outstanding. *)
Definition idle_when_not_polling (rm : ReplayMerge) : Prop :=
  m_state rm = CATCHUP \/ m_state rm = STOP_REPLAY ->
  m_activeCorrelationId rm = NULL_VALUE.

(** The newest awaited request carries the outstanding correlation id. *)
Definition newest_awaited_is_active (s : ReplayMerge * World) : Prop :=
  m_activeCorrelationId (fst s) <> NULL_VALUE ->
  exists r rest,
    filter awaits_response (requests (snd s)) = r :: rest /\
    request_correlationId r = m_activeCorrelationId (fst s).

(** The states in which the replay destination added at construction is
    still attached on behalf of the merge. *)
Definition owns_replay_destination (s : State) : bool :=
  match s with
  | GET_RECORDING_POSITION | REPLAY | CATCHUP | ATTEMPT_LIVE_JOIN => true
  | STOP_REPLAY | MERGED | CLOSED => false
  end.

(** The states before MERGED. *)
Definition before_merged (s : State) : bool :=
  match s with
  | MERGED | CLOSED => false
  | _ => true
  end.

(** What a sequence of calls keeps true of the removals of the replay
    destination and of the stop-replay requests, counted from the world at
    construction. *)
Definition cleanup_invariant (replayDestination : string) (removed stopped : Z)
    (s : ReplayMerge * World) : Prop :=
  m_replayDestination (fst s) = replayDestination /\
  removed <= removals_of replayDestination (snd s) <= removed + 1 /\
  (owns_replay_destination (m_state (fst s)) = true ->
   removals_of replayDestination (snd s) = removed) /\
  stopped <= stop_replay_requests (snd s) <= stopped + 1 /\
  (m_isReplayActive (fst s) = true -> stop_replay_requests (snd s) = stopped) /\
  (before_merged (m_state (fst s)) = true ->
   stop_replay_requests (snd s) = stopped).

(** The members the constructor fixes. *)
Definition configuration (rm : ReplayMerge)
  : ChannelUri * string * string * Z * Z * Z :=
  (m_replayChannel rm, m_replayDestination rm, m_liveDestination rm,
   m_recordingId rm, m_startPosition rm, m_mergeProgressTimeoutMs rm).

(** The later members keep a set live-added flag and a held image. *)
Definition keeps_flag_and_image (rm rm' : ReplayMerge) : Prop :=
  (m_isLiveAdded rm = true -> m_isLiveAdded rm' = true) /\
  (forall i, m_image rm = Some i -> m_image rm' = Some i).

(** What holds of the members in each state: the replay is active from
    CATCHUP to STOP_REPLAY and at no time before or in MERGED; outside the
    two polling states that follow the first no request is outstanding; the
    target is resolved wherever it is compared or was acted on; an image is
    held from ATTEMPT_LIVE_JOIN on. *)
Definition lifecycle_invariant (rm : ReplayMerge) : Prop :=
  match m_state rm with
  | GET_RECORDING_POSITION => m_isReplayActive rm = false
  | REPLAY =>
      m_isReplayActive rm = false /\ m_nextTargetPosition rm <> NULL_POSITION
  | CATCHUP =>
      m_isReplayActive rm = true /\ m_nextTargetPosition rm <> NULL_POSITION /\
      m_activeCorrelationId rm = NULL_VALUE
  | ATTEMPT_LIVE_JOIN =>
      m_isReplayActive rm = true /\ m_image rm <> None
  | STOP_REPLAY =>
      m_isReplayActive rm = true /\ m_nextTargetPosition rm <> NULL_POSITION /\
      m_activeCorrelationId rm = NULL_VALUE /\ m_image rm <> None
  | MERGED =>
      m_isReplayActive rm = false /\ m_nextTargetPosition rm <> NULL_POSITION /\
      m_activeCorrelationId rm = NULL_VALUE /\ m_image rm <> None
  | CLOSED => True
  end.

(** A step consumes a response when the state polls, a request is
    outstanding and [pollForResponse] returns [true]. *)
Definition consumes_response (rm : ReplayMerge) (e : Env) : bool :=
  match m_state rm with
  | GET_RECORDING_POSITION | REPLAY | ATTEMPT_LIVE_JOIN =>
      negb (NULL_VALUE =? m_activeCorrelationId rm) &&
      match pollForResponse e (m_activeCorrelationId rm) with
      | Returned true => true
      | _ => false
      end
  | _ => false
  end.

(** The number of responses consumed along a sequence of calls. *)
Fixpoint responses_consumed (cs : list Call) (s : ReplayMerge * World) : Z :=
  match cs with
  | [] => 0
  | c :: rest =>
      (match c with
       | Step _ e => if consumes_response (fst s) e then 1 else 0
       | Close _ => 0
       end) + responses_consumed rest (call c s)
  end.

(** The correlation ids the collaborators hand out during a sequence of
    calls are never the sentinel. *)
Definition mints_real_id (c : Call) : Prop :=
  match c with
  | Step _ e | Close e => nextCorrelationId e <> NULL_VALUE
  end.

(** The transitions of the state diagram: staying, the forward chain, the
    loop back from ATTEMPT_LIVE_JOIN to CATCHUP, and closing. *)
Inductive transition : State -> State -> Prop :=
| transition_stay s : transition s s
| transition_replay : transition GET_RECORDING_POSITION REPLAY
| transition_catchup : transition REPLAY CATCHUP
| transition_attempt : transition CATCHUP ATTEMPT_LIVE_JOIN
| transition_loop_back : transition ATTEMPT_LIVE_JOIN CATCHUP
| transition_stop_replay : transition ATTEMPT_LIVE_JOIN STOP_REPLAY
| transition_merged : transition STOP_REPLAY MERGED
| transition_closed s : transition s CLOSED.

End Notions.

(** ** An instance of the declarations

    Modelled from the spec: the constants and the join predicates are
    declared outside the sources.  This instance gives the sentinels the
    value -1, the URI parameter names their usual spelling, and makes the two
    predicates the position-distance comparisons the spec describes: the
    live destination is added once, when the target is within
    [liveAddThreshold] of the image position; the replay is stopped after
    that, when the target is within [replayRemoveThreshold].  It serves to
    evaluate the member functions on concrete inputs. *)
Definition threshold_declarations (liveAddThreshold replayRemoveThreshold : Z)
  : Declarations :=
  {| NULL_VALUE := -1;
     NULL_POSITION := -1;
     MDC_CONTROL_MODE_PARAM_NAME := "control-mode";
     MDC_CONTROL_MODE_MANUAL := "manual";
     LINGER_PARAM_NAME := "linger";
     EOS_PARAM_NAME := "eos";
     shouldAddLiveDestination := fun rm _ position =>
       negb (m_isLiveAdded rm) &&
       (m_nextTargetPosition rm - position <=? liveAddThreshold);
     shouldStopAndRemoveReplay := fun rm _ position =>
       m_isLiveAdded rm &&
       (m_nextTargetPosition rm - position <=? replayRemoveThreshold) |}.

(** ** A concrete merge

    A subscription in manual control mode, a recording of 5000 bytes whose
    replay gets session id 7, control session 1, a progress timeout of one
    second, and the threshold predicates with a window of 100 for joining
    and 0 for stopping. *)

Definition scenario_declarations : Declarations := threshold_declarations 100 0.

Definition manual_channel : ChannelUri :=
  mkChannelUri "udp" [("control-mode", "manual")].

Definition replay_channel : ChannelUri :=
  mkChannelUri "udp" [("endpoint", "localhost:0")].

Definition quiet_poller : ControlResponsePoller :=
  mkPoller 0 false 0 0 false 0 EmptyString.

Definition response_for (correlationId relevant : Z) : ControlResponsePoller :=
  mkPoller 1 true 1 correlationId false relevant EmptyString.

Definition error_for (correlationId relevant : Z) : ControlResponsePoller :=
  mkPoller 1 true 1 correlationId true relevant "unknown recording".

Definition scenario_env (correlationId : Z) (accepted : bool)
    (poller : ControlResponsePoller) (imagePosition : Z) (imageClosed : bool) : Env :=
  mkEnv 0 false correlationId 1 accepted poller manual_channel 10 true
    (fun sessionId => if sessionId =? 7 then Some 7 else None)
    (fun _ => mkImage imagePosition imageClosed).

Definition no_calls : World := mkWorld [] [].

(** The members and the world right after construction. *)
Definition scenario_start : ReplayMerge * World :=
  (@initial_members scenario_declarations replay_channel "replay-dest" "live-dest"
     42 0 1000 0,
   mkWorld [AddDestination "replay-dest"] []).

(** Steps that take the machine to CATCHUP with the image resolved at
    position 3000, short of the target 5000. *)
Definition to_catchup : list Call :=
  [ Step 0 (scenario_env 100 true quiet_poller 0 false);
    Step 1 (scenario_env 0 true (response_for 100 5000) 0 false);
    Step 2 (scenario_env 101 true quiet_poller 0 false);
    Step 3 (scenario_env 0 true (response_for 101 7) 0 false);
    Step 4 (scenario_env 0 true quiet_poller 3000 false) ].

(** Further steps to ATTEMPT_LIVE_JOIN with request 102 outstanding. *)
Definition to_attempt_live_join : list Call :=
  to_catchup ++
  [ Step 5 (scenario_env 0 true quiet_poller 5000 false);
    Step 6 (scenario_env 102 true quiet_poller 5000 false) ].

(** Further steps through adding the live destination to STOP_REPLAY. *)
Definition to_stop_replay : list Call :=
  to_attempt_live_join ++
  [ Step 7 (scenario_env 0 true (response_for 102 5000) 5000 false);
    Step 8 (scenario_env 0 true quiet_poller 5000 false);
    Step 9 (scenario_env 103 true quiet_poller 5000 false);
    Step 10 (scenario_env 0 true (response_for 103 5000) 5000 false) ].

Definition at_catchup : ReplayMerge * World :=
  @calls scenario_declarations to_catchup scenario_start.

Definition at_attempt_live_join : ReplayMerge * World :=
  @calls scenario_declarations to_attempt_live_join scenario_start.

Definition at_stop_replay : ReplayMerge * World :=
  @calls scenario_declarations to_stop_replay scenario_start.

(** Members in ATTEMPT_LIVE_JOIN with request 102 outstanding and no image
    held, as [attemptLiveJoin] provides for. *)
Definition join_without_image : ReplayMerge :=
  set_image None (fst at_attempt_live_join).

(** After the first step: GET_RECORDING_POSITION with request 100
    outstanding. *)
Definition awaiting_position : ReplayMerge * World :=
  @calls scenario_declarations (firstn 1 to_catchup) scenario_start.

(** After the third step: REPLAY with the replay request 101 outstanding. *)
Definition awaiting_replay : ReplayMerge * World :=
  @calls scenario_declarations (firstn 3 to_catchup) scenario_start.

(** After the fourth step: CATCHUP with the replay active and no image
    held yet. *)
Definition replay_started : ReplayMerge * World :=
  @calls scenario_declarations (firstn 4 to_catchup) scenario_start.

(** The collaborators while the subscription is not connected. *)
Definition disconnected_env : Env :=
  mkEnv 0 false 0 1 true quiet_poller manual_channel 10 false
    (fun _ => None) (fun _ => mkImage 0 false).

(** ** Readings of the spec that the code does not bear out *)

Section Readings.
Context {decls : Declarations}.

(** Every accepted control request opens a window in which
    [m_activeCorrelationId] is not the sentinel. *)
Definition accepted_request_is_tracked : Prop :=
  forall (replayChannel : ChannelUri) (replayDestination liveDestination : string)
         (recordingId startPosition mergeProgressTimeoutMs : Z) (e0 : Env) (w0 : World)
         (rm0 : ReplayMerge) (w1 : World) (cs : list Call) (nowMs : Z) (e : Env),
    ReplayMerge_new replayChannel replayDestination liveDestination recordingId
      startPosition mergeProgressTimeoutMs e0 w0 = (Returned rm0, w1) ->
    Forall mints_real_id (cs ++ [Step nowMs e]) ->
    let s := calls cs (rm0, w1) in
    let r := step nowMs (fst s) e (snd s) in
    requests (run_world r) <> requests (snd s) ->
    m_activeCorrelationId (run_members r) <> NULL_VALUE.

(** MERGED is entered only in a step that found a completed response. *)
Definition merged_only_after_response : Prop :=
  forall (rm : ReplayMerge) (e : Env) (w : World),
    m_state rm = STOP_REPLAY ->
    m_state (run_members (stopReplay rm e w)) = MERGED ->
    0 < poll (controlResponsePoller e) /\
    isPollComplete (controlResponsePoller e) = true.

(** In CATCHUP a closed image always makes the call throw. *)
Definition closed_image_always_fatal : Prop :=
  forall (nowMs : Z) (rm : ReplayMerge) (e : Env) (w : World) (i : ImageId),
    m_state rm = CATCHUP ->
    m_image rm = Some i ->
    isClosed (image e i) = true ->
    exists ex rm' w', catchup nowMs rm e w = Raise ex rm' w'.

(** A step that consumes a matched response refreshes the progress clock, so
    that [checkProgress] at the time of that step does not throw. *)
Definition matched_response_refreshes_clock : Prop :=
  forall (nowMs : Z) (rm : ReplayMerge) (e : Env) (w : World),
    0 <= m_mergeProgressTimeoutMs rm ->
    consumes_response rm e = true ->
    checkProgress (run_members (step nowMs rm e w)) nowMs = Returned tt.

End Readings.

(** ** Properties of single calls *)

Section SingleCalls.
Context {decls : Declarations}.

Lemma State_eqb_eq (a b : State) : State_eqb a b = true <-> a = b.
Proof. destruct a, b; simpl; split; intro H; congruence. Qed.

Lemma response_matches_intro (e : Env) (correlationId : Z) :
  0 < poll (controlResponsePoller e) ->
  isPollComplete (controlResponsePoller e) = true ->
  poller_controlSessionId (controlResponsePoller e) = controlSessionId e ->
  poller_correlationId (controlResponsePoller e) = correlationId ->
  response_matches e correlationId = true.
Proof.
  intros Hpoll Hcomplete Hsession Hcorrelation. unfold response_matches.
  rewrite Hcomplete, Hsession, Hcorrelation, !Z.eqb_refl.
  apply Z.ltb_lt in Hpoll. now rewrite Hpoll.
Qed.

Lemma response_matches_mismatch (e : Env) (correlationId : Z) :
  poller_controlSessionId (controlResponsePoller e) <> controlSessionId e \/
  poller_correlationId (controlResponsePoller e) <> correlationId ->
  response_matches e correlationId = false.
Proof.
  intros [H | H]; apply Z.eqb_neq in H; unfold response_matches; rewrite H;
    simpl; now rewrite ?andb_false_r.
Qed.

(** [pollForResponse] by cases on the response it finds. *)
Lemma pollForResponse_cases (e : Env) (correlationId : Z) :
  pollForResponse e correlationId =
  if response_matches e correlationId then
    if isCodeError (controlResponsePoller e)
    then Threw (response_error e correlationId)
    else Returned true
  else Returned false.
Proof.
  unfold pollForResponse, response_matches, response_error.
  destruct (0 <? poll (controlResponsePoller e)),
           (isPollComplete (controlResponsePoller e)); reflexivity.
Qed.

Lemma outstanding_test (rm : ReplayMerge) :
  m_activeCorrelationId rm <> NULL_VALUE ->
  (NULL_VALUE =? m_activeCorrelationId rm) = false.
Proof. intro H. apply Z.eqb_neq. congruence. Qed.

(** C5. A completed response that matches the control session id and the
    outstanding correlation id and carries an error code makes
    [pollForResponse] throw the archive exception, and each member function
    that polls lets it through at once: the members and the world are as
    before the call, so no request was sent again and nothing of the response
    was taken as a result. *)
Theorem error_response_is_fatal (nowMs : Z) (rm : ReplayMerge) (e : Env) (w : World) :
  m_activeCorrelationId rm <> NULL_VALUE ->
  0 < poll (controlResponsePoller e) ->
  isPollComplete (controlResponsePoller e) = true ->
  poller_controlSessionId (controlResponsePoller e) = controlSessionId e ->
  poller_correlationId (controlResponsePoller e) = m_activeCorrelationId rm ->
  isCodeError (controlResponsePoller e) = true ->
  let ex := ArchiveException
              (static_cast_int32 (relevantId (controlResponsePoller e)))
              ("archive response for correlationId=" ++
               to_string (m_activeCorrelationId rm) ++
               ", error: " ++ errorMessage (controlResponsePoller e)) in
  pollForResponse e (m_activeCorrelationId rm) = Threw ex /\
  getRecordingPosition nowMs rm e w = Raise ex rm w /\
  replay nowMs rm e w = Raise ex rm w /\
  attemptLiveJoin nowMs rm e w = Raise ex rm w.
Proof.
  intros Hactive Hpoll Hcomplete Hsession Hcorrelation Herror ex.
  assert (Hthrow : pollForResponse e (m_activeCorrelationId rm) = Threw ex).
  { rewrite pollForResponse_cases, response_matches_intro, Herror by assumption.
    reflexivity. }
  unfold getRecordingPosition, replay, attemptLiveJoin.
  rewrite (outstanding_test rm Hactive), Hthrow. repeat split.
Qed.

(** C6. A completed response whose control session id or correlation id is
    not that of the outstanding request is ignored by every member function
    that polls: work count 0, members unchanged (the correlation id stays
    outstanding, the state stays), world unchanged. *)
Theorem unmatched_response_is_ignored (nowMs : Z) (rm : ReplayMerge) (e : Env) (w : World) :
  m_activeCorrelationId rm <> NULL_VALUE ->
  0 < poll (controlResponsePoller e) ->
  isPollComplete (controlResponsePoller e) = true ->
  (poller_controlSessionId (controlResponsePoller e) <> controlSessionId e \/
   poller_correlationId (controlResponsePoller e) <> m_activeCorrelationId rm) ->
  pollForResponse e (m_activeCorrelationId rm) = Returned false /\
  getRecordingPosition nowMs rm e w = Done 0 rm w /\
  replay nowMs rm e w = Done 0 rm w /\
  attemptLiveJoin nowMs rm e w = Done 0 rm w.
Proof.
  intros Hactive _ _ Hmismatch.
  assert (Hignored : pollForResponse e (m_activeCorrelationId rm) = Returned false).
  { now rewrite pollForResponse_cases, response_matches_mismatch. }
  unfold getRecordingPosition, replay, attemptLiveJoin.
  rewrite (outstanding_test rm Hactive), Hignored. repeat split.
Qed.

(** C10. In ATTEMPT_LIVE_JOIN, a matched response with a resolved position
    while no image is held sends the machine back to CATCHUP with work count
    1: no destination call is made, the live-added flag keeps its value, and
    only the target position, the correlation id and the state change. *)
Theorem live_join_without_image_loops_back
    (nowMs : Z) (rm : ReplayMerge) (e : Env) (w : World) :
  m_state rm = ATTEMPT_LIVE_JOIN ->
  m_activeCorrelationId rm <> NULL_VALUE ->
  0 < poll (controlResponsePoller e) ->
  isPollComplete (controlResponsePoller e) = true ->
  poller_controlSessionId (controlResponsePoller e) = controlSessionId e ->
  poller_correlationId (controlResponsePoller e) = m_activeCorrelationId rm ->
  isCodeError (controlResponsePoller e) = false ->
  relevantId (controlResponsePoller e) <> NULL_POSITION ->
  m_image rm = None ->
  attemptLiveJoin nowMs rm e w =
    Done 1 (state CATCHUP
              (set_activeCorrelationId NULL_VALUE
                 (set_nextTargetPosition (relevantId (controlResponsePoller e)) rm)))
      w /\
  destinationCalls (run_world (attemptLiveJoin nowMs rm e w)) = destinationCalls w /\
  m_isLiveAdded (run_members (attemptLiveJoin nowMs rm e w)) = m_isLiveAdded rm /\
  m_state (run_members (attemptLiveJoin nowMs rm e w)) = CATCHUP.
Proof.
  intros _ Hactive Hpoll Hcomplete Hsession Hcorrelation Hcode Hresolved Himage.
  assert (Hjoin : attemptLiveJoin nowMs rm e w =
    Done 1 (state CATCHUP
              (set_activeCorrelationId NULL_VALUE
                 (set_nextTargetPosition (relevantId (controlResponsePoller e)) rm)))
      w).
  { unfold attemptLiveJoin.
    rewrite (outstanding_test rm Hactive), pollForResponse_cases,
      response_matches_intro, Hcode by assumption.
    cbn [m_nextTargetPosition set_activeCorrelationId set_nextTargetPosition m_image].
    assert (Hne : (NULL_POSITION =? relevantId (controlResponsePoller e)) = false)
      by (apply Z.eqb_neq; congruence).
    rewrite Hne, Himage. reflexivity. }
  split; [exact Hjoin |].
  rewrite Hjoin. repeat split.
Qed.

(** C9. The constructor throws the illegal-argument exception exactly when
    the control-mode parameter of the subscription's channel differs from
    the manual mode, and then calls nothing on the subscription; otherwise
    it adds the replay destination and leaves the machine in
    GET_RECORDING_POSITION with the progress clock at the clock's reading. *)
Theorem construction_requires_manual_control_mode
    (replayChannel : ChannelUri) (replayDestination liveDestination : string)
    (recordingId startPosition mergeProgressTimeoutMs : Z) (e : Env) (w : World) :
  let made := ReplayMerge_new replayChannel replayDestination liveDestination
                recordingId startPosition mergeProgressTimeoutMs e w in
  let mode := ChannelUri_get (channel e) MDC_CONTROL_MODE_PARAM_NAME in
  ((exists ex, fst made = Threw ex) <-> mode <> MDC_CONTROL_MODE_MANUAL) /\
  (mode <> MDC_CONTROL_MODE_MANUAL ->
     fst made = Threw (IllegalArgumentException
                         ("subscription channel must be manual control mode: mode=" ++ mode)) /\
     snd made = w) /\
  (mode = MDC_CONTROL_MODE_MANUAL ->
     exists rm,
       fst made = Returned rm /\
       snd made = subscription_call (AddDestination replayDestination) w /\
       m_state rm = GET_RECORDING_POSITION /\
       m_timeOfLastProgressMs rm = epochClock e /\
       m_replayDestination rm = replayDestination /\
       m_activeCorrelationId rm = NULL_VALUE /\
       m_image rm = None).
Proof.
  intros made mode. subst made. unfold ReplayMerge_new. fold mode.
  destruct (String.eqb_spec mode MDC_CONTROL_MODE_MANUAL) as [Heq | Hne]; simpl.
  - split; [| split].
    + split; [intros [ex Hex]; discriminate | intro H; contradiction].
    + intro H; contradiction.
    + intros _. eexists. repeat split.
  - split; [| split].
    + split; [intros _; exact Hne | intros _; eexists; reflexivity].
    + intros _. split; reflexivity.
    + intro H; contradiction.
Qed.

End SingleCalls.

(** ** What each member function does to the state, the clock and the world *)

(** Case analysis along the branches of a member function, innermost test
    first. *)
Ltac plain t :=
  lazymatch t with
  | context [if _ then _ else _] => fail
  | _ => idtac
  end.

Ltac branches :=
  repeat (cbn -[pollForResponse awaited_requests stop_replay_requests removals_of];
    match goal with
    | |- context [match pollForResponse ?e ?c with _ => _ end] =>
        plain c; destruct (pollForResponse e c) as [[|] | ?] eqn:?
    | |- context [if ?b then _ else _] => plain b; destruct b eqn:?
    | |- context [match ?x with Some _ => _ | None => _ end] =>
        plain x; destruct x eqn:?
    end);
  cbn -[pollForResponse awaited_requests stop_replay_requests removals_of].

Ltac member_cases :=
  unfold getRecordingPosition, replay, catchup, catchup_resolve, attemptLiveJoin,
    stopReplay, ReplayMerge_delete, archiveProxy, state;
  branches.

Section Effects.
Context {decls : Declarations}.

Lemma getRecordingPosition_state (nowMs : Z) (rm : ReplayMerge) (e : Env) (w : World) :
  m_state (run_members (getRecordingPosition nowMs rm e w)) = m_state rm \/
  m_state (run_members (getRecordingPosition nowMs rm e w)) = REPLAY.
Proof. member_cases; auto. Qed.

Lemma replay_state (nowMs : Z) (rm : ReplayMerge) (e : Env) (w : World) :
  m_state (run_members (replay nowMs rm e w)) = m_state rm \/
  m_state (run_members (replay nowMs rm e w)) = CATCHUP.
Proof. member_cases; auto. Qed.

Lemma catchup_state (nowMs : Z) (rm : ReplayMerge) (e : Env) (w : World) :
  m_state (run_members (catchup nowMs rm e w)) = m_state rm \/
  m_state (run_members (catchup nowMs rm e w)) = ATTEMPT_LIVE_JOIN.
Proof. member_cases; auto. Qed.

Lemma attemptLiveJoin_state (nowMs : Z) (rm : ReplayMerge) (e : Env) (w : World) :
  m_state (run_members (attemptLiveJoin nowMs rm e w)) = m_state rm \/
  m_state (run_members (attemptLiveJoin nowMs rm e w)) = CATCHUP \/
  m_state (run_members (attemptLiveJoin nowMs rm e w)) = STOP_REPLAY.
Proof. member_cases; auto. Qed.

Lemma stopReplay_state (rm : ReplayMerge) (e : Env) (w : World) :
  m_state (run_members (stopReplay rm e w)) = m_state rm \/
  m_state (run_members (stopReplay rm e w)) = MERGED.
Proof. member_cases; auto. Qed.

Lemma ReplayMerge_delete_state (rm : ReplayMerge) (e : Env) (w : World) :
  m_state (fst (ReplayMerge_delete rm e w)) = CLOSED.
Proof.
  unfold ReplayMerge_delete.
  destruct (State_eqb CLOSED (m_state rm)) eqn:Hclosed; cbn.
  - symmetry. now apply State_eqb_eq.
  - destruct (negb (aeron_isClosed e)); [destruct (m_isReplayActive rm) |];
      reflexivity.
Qed.

Lemma catchup_resolve_target (nowMs : Z) (rm : ReplayMerge) (e : Env) :
  m_nextTargetPosition (catchup_resolve nowMs rm e) = m_nextTargetPosition rm.
Proof. unfold catchup_resolve; branches; reflexivity. Qed.

Lemma catchup_resolve_held (nowMs : Z) (rm : ReplayMerge) (e : Env) (i : ImageId) :
  m_image rm = Some i -> catchup_resolve nowMs rm e = rm.
Proof. intro H. unfold catchup_resolve. now rewrite H. Qed.

(** X20. [catchup] throws for no other reason than a closed image short of
    the target: the exception is the timeout exception naming the closed
    image, and the members at the throw hold that image. *)
Lemma catchup_throws_only_for_closed_image
    (nowMs : Z) (rm : ReplayMerge) (e : Env) (w : World)
    (ex : Exception) (rm' : ReplayMerge) (w' : World) :
  catchup nowMs rm e w = Raise ex rm' w' ->
  ex = TimeoutException "ReplayMerge Image closed unexpectedly." /\
  exists i, m_image rm' = Some i /\ isClosed (image e i) = true /\
            position (image e i) < m_nextTargetPosition rm.
Proof.
  unfold catchup.
  destruct (m_image (catchup_resolve nowMs rm e)) as [i |] eqn:Himage;
    [| discriminate].
  rewrite catchup_resolve_target.
  destruct (m_nextTargetPosition rm <=? position (image e i)) eqn:Htarget;
    [discriminate |].
  destruct (isClosed (image e i)) eqn:Hclosed.
  - intro H. injection H as <- <- <-. split; [reflexivity |].
    exists i. apply Z.leb_gt in Htarget. auto.
  - destruct (_ <? _); discriminate.
Qed.

(** C7, as the code has it.  With the replay image resolved and closed,
    [catchup] throws the timeout exception "ReplayMerge Image closed
    unexpectedly." when the image position is short of the target position;
    when the position has reached the target the call returns work count 1
    and moves to ATTEMPT_LIVE_JOIN as for an open image. *)
Theorem closed_image_short_of_target_is_fatal
    (nowMs : Z) (rm : ReplayMerge) (e : Env) (w : World) (i : ImageId) :
  m_state rm = CATCHUP ->
  m_image (catchup_resolve nowMs rm e) = Some i ->
  isClosed (image e i) = true ->
  (position (image e i) < m_nextTargetPosition rm ->
   catchup nowMs rm e w =
     Raise (TimeoutException "ReplayMerge Image closed unexpectedly.")
       (catchup_resolve nowMs rm e) w) /\
  (m_nextTargetPosition rm <= position (image e i) ->
   catchup nowMs rm e w =
     Done 1 (state ATTEMPT_LIVE_JOIN
               (set_activeCorrelationId NULL_VALUE
                  (set_timeOfLastProgressMs nowMs (catchup_resolve nowMs rm e))))
       w).
Proof.
  intros _ Himage Hclosed. unfold catchup.
  rewrite Himage, catchup_resolve_target, Hclosed. split; intro Hposition.
  - apply Z.leb_gt in Hposition. now rewrite Hposition.
  - apply Z.leb_le in Hposition. now rewrite Hposition.
Qed.

(** C3, as the code has it.  [stopReplay] does not poll: when the archive
    proxy accepts the stop-replay request the same call marks the replay
    inactive and moves to MERGED with work count 1; when the proxy declines,
    nothing changes and the work count is 0.  No other member function
    enters MERGED, so MERGED is entered only by an accepted stop-replay
    request. *)
Theorem stop_replay_merges_on_accepted_request
    (nowMs : Z) (rm : ReplayMerge) (e : Env) (w : World) :
  let request := StopReplayRequest (m_replaySessionId rm) (nextCorrelationId e)
                   (controlSessionId e) in
  (offer e = true ->
   stopReplay rm e w =
     Done 1 (state MERGED (set_isReplayActive false rm)) (enqueue request w)) /\
  (offer e = false -> stopReplay rm e w = Done 0 rm w) /\
  (forall r,
     In r [getRecordingPosition nowMs rm e w; replay nowMs rm e w;
           catchup nowMs rm e w; attemptLiveJoin nowMs rm e w] ->
     m_state (run_members r) = MERGED -> m_state rm = MERGED) /\
  m_state (fst (ReplayMerge_delete rm e w)) <> MERGED.
Proof.
  intro request. repeat split.
  - intro Hoffer. unfold stopReplay, archiveProxy. now rewrite Hoffer.
  - intro Hoffer. unfold stopReplay, archiveProxy. now rewrite Hoffer.
  - intros r Hin Hmerged. cbn [In] in Hin.
    destruct Hin as [<- | [<- | [<- | [<- | []]]]].
    + destruct (getRecordingPosition_state nowMs rm e w); congruence.
    + destruct (replay_state nowMs rm e w); congruence.
    + destruct (catchup_state nowMs rm e w); congruence.
    + destruct (attemptLiveJoin_state nowMs rm e w) as [|[|]]; congruence.
  - rewrite ReplayMerge_delete_state. discriminate.
Qed.

End Effects.

(** ** Sequences of calls *)

Section Sequences.
Context {decls : Declarations}.

Lemma calls_snoc (cs : list Call) (c : Call) (s : ReplayMerge * World) :
  calls (cs ++ [c]) s = call c (calls cs s).
Proof. unfold calls. now rewrite fold_left_app. Qed.

Lemma step_transition (nowMs : Z) (rm : ReplayMerge) (e : Env) (w : World) :
  transition (m_state rm) (m_state (run_members (step nowMs rm e w))).
Proof.
  unfold step. destruct (m_state rm) eqn:Hstate.
  - destruct (getRecordingPosition_state nowMs rm e w) as [H | H];
      rewrite H, ?Hstate; constructor.
  - destruct (replay_state nowMs rm e w) as [H | H];
      rewrite H, ?Hstate; constructor.
  - destruct (catchup_state nowMs rm e w) as [H | H];
      rewrite H, ?Hstate; constructor.
  - destruct (attemptLiveJoin_state nowMs rm e w) as [H | [H | H]];
      rewrite H, ?Hstate; constructor.
  - destruct (stopReplay_state rm e w) as [H | H];
      rewrite H, ?Hstate; constructor.
  - cbn. rewrite Hstate. constructor.
  - cbn. rewrite Hstate. constructor.
Qed.

Lemma step_never_closes (nowMs : Z) (rm : ReplayMerge) (e : Env) (w : World) :
  m_state (run_members (step nowMs rm e w)) = CLOSED -> m_state rm = CLOSED.
Proof.
  unfold step. destruct (m_state rm) eqn:Hstate; cbn; try congruence.
  - destruct (getRecordingPosition_state nowMs rm e w); congruence.
  - destruct (replay_state nowMs rm e w); congruence.
  - destruct (catchup_state nowMs rm e w); congruence.
  - destruct (attemptLiveJoin_state nowMs rm e w) as [|[|]]; congruence.
  - destruct (stopReplay_state rm e w); congruence.
Qed.

Lemma transition_backward (s s' : State) :
  transition s s' ->
  State_ordinal s' < State_ordinal s ->
  s = ATTEMPT_LIVE_JOIN /\ s' = CATCHUP.
Proof.
  intros Ht Hlt. destruct Ht; cbn in Hlt; try lia; try (split; reflexivity).
  destruct s; cbn in Hlt; lia.
Qed.

(** C1. Whatever calls came before, a further call changes the state only
    along the diagram: it stays, or takes one edge of GET_RECORDING_POSITION
    -> REPLAY -> CATCHUP -> ATTEMPT_LIVE_JOIN -> STOP_REPLAY -> MERGED, or the
    loop back ATTEMPT_LIVE_JOIN -> CATCHUP, or ends in CLOSED.  The loop back
    is the only change that lowers the state; a step never closes; the
    teardown reaches CLOSED from every state.  The sequence may start from
    any members, those the constructor returns among them. *)
Theorem state_moves_along_the_diagram
    (rm : ReplayMerge) (w : World) (cs : list Call) (c : Call) :
  let before := calls cs (rm, w) in
  let after := call c before in
  transition (m_state (fst before)) (m_state (fst after)) /\
  (State_ordinal (m_state (fst after)) < State_ordinal (m_state (fst before)) ->
   m_state (fst before) = ATTEMPT_LIVE_JOIN /\ m_state (fst after) = CATCHUP) /\
  (forall nowMs e, c = Step nowMs e -> m_state (fst after) = CLOSED ->
                   m_state (fst before) = CLOSED) /\
  (forall e, m_state (fst (call (Close e) before)) = CLOSED).
Proof.
  intros before after.
  assert (Ht : transition (m_state (fst before)) (m_state (fst after))).
  { subst after. destruct c as [nowMs e | e]; cbn [call fst].
    - apply step_transition.
    - rewrite ReplayMerge_delete_state. constructor. }
  split; [exact Ht |]. split; [now apply transition_backward |]. split.
  - intros nowMs e -> Hclosed. subst after. cbn [call fst] in Hclosed.
    now apply step_never_closes in Hclosed.
  - intro e. cbn [call]. apply ReplayMerge_delete_state.
Qed.

End Sequences.

(** ** Requests awaited and responses consumed *)

Section Balance.
Context {decls : Declarations}.

Lemma awaited_enqueue (r : ControlRequest) (w : World) :
  awaited_requests (enqueue r w) =
  awaited_requests w + (if awaits_response r then 1 else 0).
Proof.
  unfold awaited_requests, enqueue. cbn [requests filter].
  destruct (awaits_response r); cbn [List.length]; lia.
Qed.

Lemma awaited_subscription_call (c : SubscriptionCall) (w : World) :
  awaited_requests (subscription_call c w) = awaited_requests w.
Proof. reflexivity. Qed.

Lemma step_balance (nowMs : Z) (rm : ReplayMerge) (e : Env) (w : World) :
  nextCorrelationId e <> NULL_VALUE ->
  idle_when_not_polling rm ->
  newest_awaited_is_active (rm, w) ->
  let r := step nowMs rm e w in
  awaited_requests (run_world r) + outstanding rm =
    awaited_requests w + (if consumes_response rm e then 1 else 0) +
    outstanding (run_members r) /\
  idle_when_not_polling (run_members r) /\
  newest_awaited_is_active (run_members r, run_world r).
Proof.
  intros Hmint Hidle Hnewest.
  assert (Hmint' : (NULL_VALUE =? nextCorrelationId e) = false)
    by (apply Z.eqb_neq; congruence).
  unfold step, consumes_response, idle_when_not_polling, newest_awaited_is_active,
    outstanding in *.
  cbn [fst snd] in *.
  destruct (m_state rm) eqn:Hstate.
  all: member_cases.
  all: try discriminate.
  all: try (exfalso;
            match goal with
            | H : (NULL_VALUE =? m_activeCorrelationId _) = false |- _ =>
                rewrite Hidle, Z.eqb_refl in H by auto; discriminate H
            end).
  all: rewrite ?awaited_enqueue, ?awaited_subscription_call; cbn [awaits_response].
  all: split; [lia | split].
  all: try (intros [H | H]; congruence).
  all: try (intros _; apply Hidle; auto).
  all: try (intro H; congruence).
  all: try (intros _; eexists; eexists; split; reflexivity).
  all: try assumption.
Qed.

Lemma delete_balance (rm : ReplayMerge) (e : Env) (w : World) :
  newest_awaited_is_active (rm, w) ->
  let s := ReplayMerge_delete rm e w in
  awaited_requests (snd s) = awaited_requests w /\
  outstanding (fst s) = outstanding rm /\
  idle_when_not_polling (fst s) /\
  newest_awaited_is_active s.
Proof.
  intro Hnewest.
  unfold idle_when_not_polling, newest_awaited_is_active, outstanding in *.
  cbn [fst snd] in *.
  member_cases.
  all: rewrite ?awaited_enqueue, ?awaited_subscription_call; cbn [awaits_response].
  all: repeat split; try lia; try (intros [H | H]; congruence); try assumption.
  destruct (m_state rm); cbn in *; intros [H | H]; congruence.
Qed.

Lemma calls_balance (cs : list Call) :
  forall s : ReplayMerge * World,
    Forall mints_real_id cs ->
    idle_when_not_polling (fst s) ->
    newest_awaited_is_active s ->
    awaited_requests (snd (calls cs s)) + outstanding (fst s) =
      awaited_requests (snd s) + responses_consumed cs s +
      outstanding (fst (calls cs s)) /\
    newest_awaited_is_active (calls cs s).
Proof.
  induction cs as [| c rest IH]; intros [rm w] Hmints Hidle Hnewest.
  - cbn. split; [lia | assumption].
  - inversion Hmints as [| ? ? Hmint Hrest]; subst.
    change (calls (c :: rest) (rm, w)) with (calls rest (call c (rm, w))).
    cbn [responses_consumed fst snd] in *.
    destruct c as [nowMs e | e]; cbn [call fst snd mints_real_id] in *.
    + destruct (step_balance nowMs rm e w Hmint Hidle Hnewest)
        as (Hcount & Hidle' & Hnewest').
      destruct (IH (run_members (step nowMs rm e w), run_world (step nowMs rm e w))
                  Hrest Hidle' Hnewest') as (Hcount' & Hlast).
      cbn [fst snd] in *. split; [lia | assumption].
    + destruct (delete_balance rm e w Hnewest)
        as (Hcount & Hout & Hidle' & Hnewest').
      destruct (ReplayMerge_delete rm e w) as [rm' w'] eqn:Hdelete.
      destruct (IH (rm', w') Hrest Hidle' Hnewest') as (Hcount' & Hlast).
      cbn [fst snd] in *. split; [lia | assumption].
Qed.

(** C2, as the code has it.  Along every sequence of calls from construction
    in which the correlation ids handed out are never the sentinel, the
    requests whose response the machine waits for (get-recording-position,
    get-stop-position, replay) number the responses consumed plus one when
    [m_activeCorrelationId] holds an id, plus none when it holds the
    sentinel: the id is set exactly while one such request is unanswered,
    each consumed response clears it once, and at most one is outstanding.
    While it is set, the newest such request carries it.  A stop-replay
    request is outside this accounting: [stopReplay] sends it without
    touching [m_activeCorrelationId], and no response to it is awaited. *)
Theorem correlation_id_tracks_awaited_request
    (replayChannel : ChannelUri) (replayDestination liveDestination : string)
    (recordingId startPosition mergeProgressTimeoutMs : Z) (e0 : Env) (w0 : World)
    (rm0 : ReplayMerge) (w1 : World) (cs : list Call) :
  ReplayMerge_new replayChannel replayDestination liveDestination recordingId
    startPosition mergeProgressTimeoutMs e0 w0 = (Returned rm0, w1) ->
  Forall mints_real_id cs ->
  let s := calls cs (rm0, w1) in
  awaited_requests (snd s) =
    awaited_requests w0 + responses_consumed cs (rm0, w1) + outstanding (fst s) /\
  (m_activeCorrelationId (fst s) <> NULL_VALUE ->
   exists r rest,
     filter awaits_response (requests (snd s)) = r :: rest /\
     request_correlationId r = m_activeCorrelationId (fst s)) /\
  (forall e w,
     m_activeCorrelationId (run_members (stopReplay (fst s) e w)) =
       m_activeCorrelationId (fst s) /\
     awaited_requests (run_world (stopReplay (fst s) e w)) = awaited_requests w).
Proof.
  intros Hnew Hmints s.
  unfold ReplayMerge_new in Hnew.
  destruct (negb _) in Hnew; [discriminate |].
  injection Hnew as <- <-.
  destruct (calls_balance cs
              (initial_members replayChannel replayDestination liveDestination
                 recordingId startPosition mergeProgressTimeoutMs (epochClock e0),
               subscription_call (AddDestination replayDestination) w0) Hmints)
    as (Hcount & Hnewest).
  - intros [H | H]; discriminate H.
  - intro H. cbn in H. congruence.
  - fold s in Hcount, Hnewest. split; [| split].
    + unfold outstanding in Hcount at 1. cbn in Hcount.
      rewrite Z.eqb_refl, awaited_subscription_call in Hcount. lia.
    + exact Hnewest.
    + intros e w. unfold stopReplay, archiveProxy.
      destruct (offer e); cbn -[awaited_requests];
        rewrite ?awaited_enqueue; cbn [awaits_response]; split;
        first [reflexivity | lia].
Qed.

End Balance.

(** ** Cleanup across every exit path *)

Section Cleanup.
Context {decls : Declarations}.

Lemma removals_enqueue (d : string) (r : ControlRequest) (w : World) :
  removals_of d (enqueue r w) = removals_of d w.
Proof. reflexivity. Qed.

Lemma removals_subscription_call (d : string) (c : SubscriptionCall) (w : World) :
  removals_of d (subscription_call c w) =
  removals_of d w + (if is_removal_of d c then 1 else 0).
Proof.
  unfold removals_of, subscription_call. cbn [destinationCalls filter].
  destruct (is_removal_of d c); cbn [List.length]; lia.
Qed.

Lemma stops_enqueue (r : ControlRequest) (w : World) :
  stop_replay_requests (enqueue r w) =
  stop_replay_requests w + (if is_stop_replay r then 1 else 0).
Proof.
  unfold stop_replay_requests, enqueue. cbn [requests filter].
  destruct (is_stop_replay r); cbn [List.length]; lia.
Qed.

Lemma stops_subscription_call (c : SubscriptionCall) (w : World) :
  stop_replay_requests (subscription_call c w) = stop_replay_requests w.
Proof. reflexivity. Qed.

Ltac count_calls Hdest :=
  rewrite ?removals_enqueue, ?removals_subscription_call, ?stops_enqueue,
    ?stops_subscription_call;
  cbn [is_removal_of is_stop_replay awaits_response negb];
  rewrite ?Hdest, ?String.eqb_refl.

Lemma step_cleanup (d : string) (removed stopped : Z)
    (nowMs : Z) (rm : ReplayMerge) (e : Env) (w : World) :
  cleanup_invariant d removed stopped (rm, w) ->
  cleanup_invariant d removed stopped
    (run_members (step nowMs rm e w), run_world (step nowMs rm e w)).
Proof.
  unfold cleanup_invariant, step. cbn [fst snd].
  intros (Hdest & Hremoved & Howned & Hstopped & Hactive & Hbefore).
  destruct (m_state rm) eqn:Hstate; cbn in Howned, Hbefore.
  all: member_cases.
  all: count_calls Hdest.
  all: rewrite ?Hstate; cbn [owns_replay_destination before_merged].
  all: repeat split; try assumption; try discriminate; try lia.
  all: try (intros _; lia).
Qed.

Lemma delete_cleanup (d : string) (removed stopped : Z)
    (rm : ReplayMerge) (e : Env) (w : World) :
  cleanup_invariant d removed stopped (rm, w) ->
  cleanup_invariant d removed stopped (ReplayMerge_delete rm e w).
Proof.
  unfold cleanup_invariant. cbn [fst snd].
  intros (Hdest & Hremoved & Howned & Hstopped & Hactive & Hbefore).
  destruct (m_state rm) eqn:Hstate; cbn in Howned, Hbefore.
  all: unfold ReplayMerge_delete, archiveProxy, state; rewrite Hstate; cbn [State_eqb negb andb].
  all: destruct (aeron_isClosed e), (m_isReplayActive rm) eqn:Hreplay, (offer e);
    cbn [fst snd negb set_state set_isReplayActive m_replayDestination m_state
         m_isReplayActive].
  all: count_calls Hdest.
  all: rewrite ?Hstate; cbn [owns_replay_destination before_merged].
  all: repeat split; try assumption; try discriminate; try lia.
  all: try (intros _; lia).
  all: intro H; congruence.
Qed.

Lemma calls_cleanup (d : string) (removed stopped : Z) (cs : list Call) :
  forall s : ReplayMerge * World,
    cleanup_invariant d removed stopped s ->
    cleanup_invariant d removed stopped (calls cs s).
Proof.
  induction cs as [| c rest IH]; intros [rm w] Hinv; [exact Hinv |].
  change (calls (c :: rest) (rm, w)) with (calls rest (call c (rm, w))).
  apply IH. destruct c as [nowMs e | e]; cbn [call fst snd].
  - now apply step_cleanup.
  - now apply delete_cleanup.
Qed.

(** C4. The teardown is idempotent: on a CLOSED machine it changes neither
    the members nor the world, and a second teardown after a first does
    nothing more.  With the control connection closed it makes no call at
    all.  It removes the replay destination only when the state is none of
    STOP_REPLAY, MERGED and CLOSED, and offers one stop-replay request only
    when a replay is active.  Along every sequence of steps and teardowns
    from construction the replay destination is removed at most once and at
    most one stop-replay request is accepted. *)
Theorem teardown_is_idempotent_and_removes_once
    (replayChannel : ChannelUri) (replayDestination liveDestination : string)
    (recordingId startPosition mergeProgressTimeoutMs : Z) (e0 : Env) (w0 : World)
    (rm0 : ReplayMerge) (w1 : World) (cs : list Call) :
  ReplayMerge_new replayChannel replayDestination liveDestination recordingId
    startPosition mergeProgressTimeoutMs e0 w0 = (Returned rm0, w1) ->
  let s := calls cs (rm0, w1) in
  (forall e, m_state (fst s) = CLOSED ->
             ReplayMerge_delete (fst s) e (snd s) = s) /\
  (forall e e',
     let closed := ReplayMerge_delete (fst s) e (snd s) in
     ReplayMerge_delete (fst closed) e' (snd closed) = closed) /\
  (forall e, aeron_isClosed e = true ->
             snd (ReplayMerge_delete (fst s) e (snd s)) = snd s) /\
  (forall e,
     destinationCalls (snd (ReplayMerge_delete (fst s) e (snd s))) =
     if negb (aeron_isClosed e) && owns_replay_destination (m_state (fst s))
     then RemoveDestination replayDestination :: destinationCalls (snd s)
     else destinationCalls (snd s)) /\
  (forall e,
     requests (snd (ReplayMerge_delete (fst s) e (snd s))) =
     if negb (State_eqb CLOSED (m_state (fst s))) && negb (aeron_isClosed e) &&
        m_isReplayActive (fst s) && offer e
     then StopReplayRequest (m_replaySessionId (fst s)) (nextCorrelationId e)
            (controlSessionId e) :: requests (snd s)
     else requests (snd s)) /\
  removals_of replayDestination (snd s) <= removals_of replayDestination w0 + 1 /\
  stop_replay_requests (snd s) <= stop_replay_requests w0 + 1.
Proof.
  intros Hnew s.
  unfold ReplayMerge_new in Hnew.
  destruct (negb _) in Hnew; [discriminate |].
  injection Hnew as <- <-.
  assert (Hinv : cleanup_invariant replayDestination
                   (removals_of replayDestination w0) (stop_replay_requests w0) s).
  { apply calls_cleanup. unfold cleanup_invariant. cbn [fst snd].
    rewrite removals_subscription_call, stops_subscription_call.
    cbn. repeat split; try lia; reflexivity. }
  destruct Hinv as (Hdest & Hremoved & _ & Hstopped & _).
  destruct s as [rm w]. cbn [fst snd] in *.
  split; [| split; [| split; [| split; [| split; [| split]]]]].
  - intros e Hclosed. unfold ReplayMerge_delete. now rewrite Hclosed.
  - intros e e'.
    pose proof (ReplayMerge_delete_state rm e w) as Hclosed.
    destruct (ReplayMerge_delete rm e w) as [rm' w']. cbn [fst snd] in *.
    unfold ReplayMerge_delete. now rewrite Hclosed.
  - intros e Hconnection. unfold ReplayMerge_delete. rewrite Hconnection.
    now destruct (negb (State_eqb CLOSED (m_state rm))).
  - intro e. unfold ReplayMerge_delete, archiveProxy, state. rewrite Hdest.
    destruct (m_state rm), (aeron_isClosed e), (m_isReplayActive rm), (offer e);
      reflexivity.
  - intro e. unfold ReplayMerge_delete, archiveProxy, state.
    destruct (m_state rm), (aeron_isClosed e), (m_isReplayActive rm), (offer e);
      reflexivity.
  - lia.
  - lia.
Qed.

End Cleanup.

(** ** The progress clock *)

Section Progress.
Context {decls : Declarations}.

Lemma stall_message_names_state (s s' : State) :
  stall_message s = stall_message s' -> s = s'.
Proof. destruct s, s'; intro H; solve [reflexivity | vm_compute in H; discriminate H]. Qed.

Lemma checkProgress_cases (rm : ReplayMerge) (nowMs : Z) :
  (m_mergeProgressTimeoutMs rm < nowMs - m_timeOfLastProgressMs rm /\
   checkProgress rm nowMs = Threw (TimeoutException (stall_message (m_state rm)))) \/
  (nowMs - m_timeOfLastProgressMs rm <= m_mergeProgressTimeoutMs rm /\
   checkProgress rm nowMs = Returned tt).
Proof.
  unfold checkProgress, hasProgressStalled.
  destruct (Z.ltb_spec (m_mergeProgressTimeoutMs rm) (nowMs - m_timeOfLastProgressMs rm));
    [left | right]; split; auto.
Qed.

(** The clock is either left alone or set to the time of the call. *)
Lemma clock_is_set_to_now (nowMs : Z) (rm : ReplayMerge) (e : Env) (w : World) (r : Run) :
  In r [getRecordingPosition nowMs rm e w; replay nowMs rm e w;
        catchup nowMs rm e w; attemptLiveJoin nowMs rm e w; stopReplay rm e w] ->
  m_timeOfLastProgressMs (run_members r) = nowMs \/
  m_timeOfLastProgressMs (run_members r) = m_timeOfLastProgressMs rm.
Proof.
  cbn [In]. intros [<- | [<- | [<- | [<- | [<- | []]]]]]; member_cases; auto.
Qed.

Lemma accepted_request_refreshes (nowMs : Z) (rm : ReplayMerge) (e : Env) (w : World) (r : Run) :
  In r [getRecordingPosition nowMs rm e w; replay nowMs rm e w;
        attemptLiveJoin nowMs rm e w] ->
  requests (run_world r) <> requests w ->
  m_timeOfLastProgressMs (run_members r) = nowMs.
Proof.
  cbn [In]. intros [<- | [<- | [<- | []]]]; member_cases; intro H;
    solve [reflexivity | contradiction H; reflexivity].
Qed.

(** C8, as the code has it.  [checkProgress] throws the timeout exception
    whose message ends in the number of the current state exactly when the
    time since the last progress exceeds the timeout.  The clock is set to
    the time of the call by every accepted get-recording-position,
    get-stop-position or replay request, by a consumed replay response, by a
    consumed resolved position in GET_RECORDING_POSITION and by an open
    image advancing past the last position seen; no member function sets it
    to anything else, and [stopReplay] never touches it.  With a timeout that
    is not negative, [checkProgress] at the time the clock was set returns. *)
Theorem stall_check_and_clock_refresh
    (nowMs : Z) (rm : ReplayMerge) (e : Env) (w : World) :
  (checkProgress rm nowMs = Threw (TimeoutException (stall_message (m_state rm))) <->
   nowMs - m_timeOfLastProgressMs rm > m_mergeProgressTimeoutMs rm) /\
  (checkProgress rm nowMs = Returned tt <->
   nowMs - m_timeOfLastProgressMs rm <= m_mergeProgressTimeoutMs rm) /\
  (forall s, stall_message s = stall_message (m_state rm) -> s = m_state rm) /\
  (forall r,
     In r [getRecordingPosition nowMs rm e w; replay nowMs rm e w;
           attemptLiveJoin nowMs rm e w] ->
     requests (run_world r) <> requests w ->
     m_timeOfLastProgressMs (run_members r) = nowMs) /\
  (m_activeCorrelationId rm <> NULL_VALUE ->
   pollForResponse e (m_activeCorrelationId rm) = Returned true ->
   m_timeOfLastProgressMs (run_members (replay nowMs rm e w)) = nowMs /\
   (relevantId (controlResponsePoller e) <> NULL_POSITION ->
    m_timeOfLastProgressMs (run_members (getRecordingPosition nowMs rm e w)) = nowMs)) /\
  (forall i, m_image rm = Some i ->
             isClosed (image e i) = false ->
             m_positionOfLastProgress rm < position (image e i) ->
             m_timeOfLastProgressMs (run_members (catchup nowMs rm e w)) = nowMs) /\
  (forall r,
     In r [getRecordingPosition nowMs rm e w; replay nowMs rm e w;
           catchup nowMs rm e w; attemptLiveJoin nowMs rm e w; stopReplay rm e w] ->
     m_timeOfLastProgressMs (run_members r) = nowMs \/
     m_timeOfLastProgressMs (run_members r) = m_timeOfLastProgressMs rm) /\
  m_timeOfLastProgressMs (run_members (stopReplay rm e w)) = m_timeOfLastProgressMs rm /\
  (0 <= m_mergeProgressTimeoutMs rm ->
   m_timeOfLastProgressMs rm = nowMs ->
   checkProgress rm nowMs = Returned tt).
Proof.
  split; [| split; [| split; [| split; [| split; [| split; [| split; [| split]]]]]]].
  - destruct (checkProgress_cases rm nowMs) as [[Hlt ->] | [Hle ->]];
      split; intro H; try reflexivity; try discriminate; lia.
  - destruct (checkProgress_cases rm nowMs) as [[Hlt ->] | [Hle ->]];
      split; intro H; try reflexivity; try discriminate; lia.
  - intros s. apply stall_message_names_state.
  - apply accepted_request_refreshes.
  - intros Hactive Hconsumed. split.
    + unfold replay. now rewrite (outstanding_test rm Hactive), Hconsumed.
    + intro Hresolved. unfold getRecordingPosition.
      rewrite (outstanding_test rm Hactive), Hconsumed.
      cbn [m_nextTargetPosition set_activeCorrelationId set_nextTargetPosition].
      assert (Hne : (NULL_POSITION =? relevantId (controlResponsePoller e)) = false)
        by (apply Z.eqb_neq; congruence).
      now rewrite Hne.
  - intros i Himage Hopen Hadvance. unfold catchup.
    rewrite (catchup_resolve_held nowMs rm e i Himage), Himage, Hopen.
    apply Z.ltb_lt in Hadvance. rewrite Hadvance.
    now destruct (m_nextTargetPosition rm <=? position (image e i)).
  - apply clock_is_set_to_now.
  - unfold stopReplay, archiveProxy. now destruct (offer e).
  - intros Htimeout Hclock.
    destruct (checkProgress_cases rm nowMs) as [[Hlt _] | [_ ->]];
      [lia | reflexivity].
Qed.

End Progress.

(** ** Requests and responses, call by call *)

Section Exchange.
Context {decls : Declarations}.

Lemma response_matches_elim (e : Env) (correlationId : Z) :
  response_matches e correlationId = true ->
  0 < poll (controlResponsePoller e) /\
  isPollComplete (controlResponsePoller e) = true /\
  poller_controlSessionId (controlResponsePoller e) = controlSessionId e /\
  poller_correlationId (controlResponsePoller e) = correlationId.
Proof.
  unfold response_matches. intro H.
  apply andb_prop in H as [H Hids]. apply andb_prop in H as [Hpoll Hcomplete].
  apply andb_prop in Hids as [Hsession Hcorrelation].
  apply Z.ltb_lt in Hpoll. apply Z.eqb_eq in Hsession, Hcorrelation. auto.
Qed.

Lemma not_own_tail {A : Type} (x : A) (l : list A) : l <> x :: l.
Proof.
  intro H. apply (f_equal (@List.length A)) in H. cbn in H. lia.
Qed.

(** X1. While a request is outstanding and the poller has nothing complete,
    the polling member functions do nothing: work count 0, members and world
    as before. *)
Theorem no_completed_response_is_no_work
    (nowMs : Z) (rm : ReplayMerge) (e : Env) (w : World) :
  m_activeCorrelationId rm <> NULL_VALUE ->
  (poll (controlResponsePoller e) <= 0 \/
   isPollComplete (controlResponsePoller e) = false) ->
  pollForResponse e (m_activeCorrelationId rm) = Returned false /\
  getRecordingPosition nowMs rm e w = Done 0 rm w /\
  replay nowMs rm e w = Done 0 rm w /\
  attemptLiveJoin nowMs rm e w = Done 0 rm w.
Proof.
  intros Hactive Hnothing.
  assert (Hpoll : pollForResponse e (m_activeCorrelationId rm) = Returned false).
  { rewrite pollForResponse_cases. unfold response_matches.
    destruct Hnothing as [Hcount | Hcomplete].
    - apply Z.ltb_ge in Hcount. now rewrite Hcount.
    - rewrite Hcomplete. now rewrite andb_false_r. }
  unfold getRecordingPosition, replay, attemptLiveJoin.
  rewrite (outstanding_test rm Hactive), Hpoll. repeat split.
Qed.

(** X2. With no request outstanding, a request the archive proxy declines
    leaves everything as it was, work count 0: the next call offers it
    again. *)
Theorem declined_request_changes_nothing
    (nowMs : Z) (rm : ReplayMerge) (e : Env) (w : World) :
  m_activeCorrelationId rm = NULL_VALUE ->
  offer e = false ->
  getRecordingPosition nowMs rm e w = Done 0 rm w /\
  replay nowMs rm e w = Done 0 rm w /\
  attemptLiveJoin nowMs rm e w = Done 0 rm w.
Proof.
  intros Hidle Hdeclined.
  unfold getRecordingPosition, replay, attemptLiveJoin, archiveProxy.
  rewrite Hidle, Z.eqb_refl, Hdeclined. repeat split.
Qed.

(** X3. The polling member functions throw nothing but the archive exception
    of a matched error response, and then leave members and world as they
    were; [stopReplay] never throws. *)
Theorem only_a_matched_error_is_thrown
    (nowMs : Z) (rm : ReplayMerge) (e : Env) (w : World) :
  (forall r ex rm' w',
     In r [getRecordingPosition nowMs rm e w; replay nowMs rm e w;
           attemptLiveJoin nowMs rm e w] ->
     r = Raise ex rm' w' ->
     m_activeCorrelationId rm <> NULL_VALUE /\
     0 < poll (controlResponsePoller e) /\
     isPollComplete (controlResponsePoller e) = true /\
     poller_controlSessionId (controlResponsePoller e) = controlSessionId e /\
     poller_correlationId (controlResponsePoller e) = m_activeCorrelationId rm /\
     isCodeError (controlResponsePoller e) = true /\
     ex = ArchiveException
            (static_cast_int32 (relevantId (controlResponsePoller e)))
            ("archive response for correlationId=" ++
             to_string (m_activeCorrelationId rm) ++
             ", error: " ++ errorMessage (controlResponsePoller e)) /\
     rm' = rm /\ w' = w) /\
  (forall ex rm' w', stopReplay rm e w <> Raise ex rm' w').
Proof.
  split.
  - intros r ex rm' w' Hin Hraise.
    assert (Hpoll : m_activeCorrelationId rm <> NULL_VALUE /\
                    pollForResponse e (m_activeCorrelationId rm) = Threw ex /\
                    rm' = rm /\ w' = w).
    { cbn [In] in Hin. destruct Hin as [<- | [<- | [<- | []]]];
        revert Hraise; member_cases; intro Hraise; try discriminate Hraise;
        injection Hraise as <- <- <-;
        (split; [intro Hnull; rewrite Hnull, Z.eqb_refl in *; discriminate | auto]). }
    destruct Hpoll as (Hactive & Hthrew & -> & ->).
    rewrite pollForResponse_cases in Hthrew.
    destruct (response_matches e (m_activeCorrelationId rm)) eqn:Hmatch;
      [| discriminate Hthrew].
    destruct (isCodeError (controlResponsePoller e)) eqn:Herror;
      [| discriminate Hthrew].
    injection Hthrew as <-.
    apply response_matches_elim in Hmatch as (? & ? & ? & ?).
    repeat split; auto.
  - intros ex rm' w'. unfold stopReplay, archiveProxy.
    destruct (offer e); discriminate.
Qed.

(** X4. For the functions that exchange with the archive, work count 0 means
    that nothing was touched, and a positive work count means that a request
    was enqueued or a response consumed. *)
Theorem work_count_reports_the_exchange
    (nowMs : Z) (rm : ReplayMerge) (e : Env) (w : World)
    (r : Run) (n : Z) (rm' : ReplayMerge) (w' : World) :
  In r [getRecordingPosition nowMs rm e w; replay nowMs rm e w;
        attemptLiveJoin nowMs rm e w; stopReplay rm e w] ->
  r = Done n rm' w' ->
  (n = 0 -> rm' = rm /\ w' = w) /\
  (0 < n ->
   requests w' <> requests w \/
   (m_activeCorrelationId rm <> NULL_VALUE /\
    pollForResponse e (m_activeCorrelationId rm) = Returned true)).
Proof.
  intros Hin Hdone. cbn [In] in Hin.
  destruct Hin as [<- | [<- | [<- | [<- | []]]]];
    revert Hdone; member_cases; intro Hdone; try discriminate Hdone;
    injection Hdone as <- <- <-;
    (split; [intro H0; try discriminate H0; auto |]); intros Hpositive;
    try lia;
    try (left; apply not_eq_sym; apply not_own_tail);
    right; (split; [intro Hnull; rewrite Hnull, Z.eqb_refl in *; discriminate | reflexivity]).
Qed.

(** X5. What each member function may do to its collaborators in one call:
    at most one request of its own kind or one destination change, never
    both; [catchup] calls nothing. *)
Theorem collaborator_footprint
    (nowMs : Z) (rm : ReplayMerge) (e : Env) (w : World) :
  let id := nextCorrelationId e in
  let session := controlSessionId e in
  (run_world (getRecordingPosition nowMs rm e w) = w \/
   run_world (getRecordingPosition nowMs rm e w) =
     enqueue (GetRecordingPositionRequest (m_recordingId rm) id session) w \/
   run_world (getRecordingPosition nowMs rm e w) =
     enqueue (GetStopPositionRequest (m_recordingId rm) id session) w) /\
  (run_world (replay nowMs rm e w) = w \/
   run_world (replay nowMs rm e w) =
     enqueue (ReplayRequest (m_recordingId rm) (m_startPosition rm) INT64_MAX
                (ChannelUri_put EOS_PARAM_NAME "false"
                   (ChannelUri_put LINGER_PARAM_NAME "0" (m_replayChannel rm)))
                (streamId e) id session) w) /\
  run_world (catchup nowMs rm e w) = w /\
  (run_world (attemptLiveJoin nowMs rm e w) = w \/
   run_world (attemptLiveJoin nowMs rm e w) =
     enqueue (GetRecordingPositionRequest (m_recordingId rm) id session) w \/
   run_world (attemptLiveJoin nowMs rm e w) =
     subscription_call (AddDestination (m_liveDestination rm)) w \/
   run_world (attemptLiveJoin nowMs rm e w) =
     subscription_call (RemoveDestination (m_replayDestination rm)) w) /\
  (run_world (stopReplay rm e w) = w \/
   run_world (stopReplay rm e w) =
     enqueue (StopReplayRequest (m_replaySessionId rm) id session) w).
Proof.
  intros id session. subst id session.
  repeat split; member_cases; auto.
Qed.

End Exchange.

(** ** Leaving GET_RECORDING_POSITION and REPLAY *)

Section Resolution.
Context {decls : Declarations}.

(** X6. [getRecordingPosition] leaves GET_RECORDING_POSITION exactly when it
    consumes a response with a resolved position; it then holds that
    position as the target, has no request outstanding, has set the clock
    and has sent nothing. *)
Theorem recording_position_resolved_before_replay
    (nowMs : Z) (rm : ReplayMerge) (e : Env) (w : World) :
  m_state rm = GET_RECORDING_POSITION ->
  let r := getRecordingPosition nowMs rm e w in
  (m_state (run_members r) = REPLAY <->
   m_activeCorrelationId rm <> NULL_VALUE /\
   pollForResponse e (m_activeCorrelationId rm) = Returned true /\
   relevantId (controlResponsePoller e) <> NULL_POSITION) /\
  (m_state (run_members r) = REPLAY ->
   r = Done 1 (run_members r) w /\
   m_nextTargetPosition (run_members r) = relevantId (controlResponsePoller e) /\
   m_nextTargetPosition (run_members r) <> NULL_POSITION /\
   m_activeCorrelationId (run_members r) = NULL_VALUE /\
   m_timeOfLastProgressMs (run_members r) = nowMs).
Proof.
  intros Hstate r. subst r. member_cases.
  all: rewrite ?Hstate.
  all: repeat match goal with
         | H : (_ =? _) = true |- _ => apply Z.eqb_eq in H
         | H : (_ =? _) = false |- _ => apply Z.eqb_neq in H
         end.
  all: split; [split |].
  all: try discriminate.
  all: try (intros (Ha & Hb & Hc); congruence).
  all: try (intros _; repeat split; congruence).
Qed.

(** X7. A consumed response that leaves the position unknown keeps the state
    and makes the same call offer a follow-up request: the stop position in
    [getRecordingPosition] (work count 2 when accepted, 1 when declined),
    the recording position again in [attemptLiveJoin] (work count 1 either
    way).  The correlation id is the new one when the request is accepted
    and the sentinel when it is declined. *)
Theorem unknown_position_is_asked_again
    (nowMs : Z) (rm : ReplayMerge) (e : Env) (w : World) :
  m_activeCorrelationId rm <> NULL_VALUE ->
  pollForResponse e (m_activeCorrelationId rm) = Returned true ->
  relevantId (controlResponsePoller e) = NULL_POSITION ->
  let unknown := set_activeCorrelationId NULL_VALUE
                   (set_nextTargetPosition NULL_POSITION rm) in
  let asked := set_activeCorrelationId (nextCorrelationId e)
                 (set_timeOfLastProgressMs nowMs unknown) in
  getRecordingPosition nowMs rm e w =
    (if offer e
     then Done 2 asked
            (enqueue (GetStopPositionRequest (m_recordingId rm)
                        (nextCorrelationId e) (controlSessionId e)) w)
     else Done 1 unknown w) /\
  attemptLiveJoin nowMs rm e w =
    (if offer e
     then Done 1 asked
            (enqueue (GetRecordingPositionRequest (m_recordingId rm)
                        (nextCorrelationId e) (controlSessionId e)) w)
     else Done 1 unknown w).
Proof.
  intros Hactive Hconsumed Hunknown unknown asked. subst unknown asked.
  unfold getRecordingPosition, attemptLiveJoin, archiveProxy.
  rewrite (outstanding_test rm Hactive), Hconsumed, Hunknown.
  cbn [m_nextTargetPosition set_activeCorrelationId set_nextTargetPosition
       m_recordingId].
  rewrite Z.eqb_refl. destruct (offer e); split; reflexivity.
Qed.

(** X8. [replay] leaves REPLAY exactly when it consumes the response to the
    replay request; it then marks the replay active, keeps the response's
    relevant id as the replay session id, and has no request outstanding.
    It marks the replay active in no other case. *)
Theorem replay_response_starts_catchup
    (nowMs : Z) (rm : ReplayMerge) (e : Env) (w : World) :
  m_state rm = REPLAY ->
  let r := replay nowMs rm e w in
  (m_state (run_members r) = CATCHUP <->
   m_activeCorrelationId rm <> NULL_VALUE /\
   pollForResponse e (m_activeCorrelationId rm) = Returned true) /\
  (m_state (run_members r) = CATCHUP ->
   r = Done 1 (run_members r) w /\
   m_isReplayActive (run_members r) = true /\
   m_replaySessionId (run_members r) = relevantId (controlResponsePoller e) /\
   m_activeCorrelationId (run_members r) = NULL_VALUE /\
   m_timeOfLastProgressMs (run_members r) = nowMs) /\
  (m_state (run_members r) = REPLAY ->
   m_isReplayActive (run_members r) = m_isReplayActive rm /\
   m_replaySessionId (run_members r) = m_replaySessionId rm).
Proof.
  intros Hstate r. subst r. member_cases.
  all: rewrite ?Hstate.
  all: repeat match goal with
         | H : (_ =? _) = true |- _ => apply Z.eqb_eq in H
         | H : (_ =? _) = false |- _ => apply Z.eqb_neq in H
         end.
  all: split; [split | split].
  all: try discriminate.
  all: try (intros (Ha & Hb); congruence).
  all: try (intros _; repeat split; congruence).
Qed.

End Resolution.

(** ** Catching up *)

Section Catchup.
Context {decls : Declarations}.

Lemma static_cast_int32_range (z : Z) :
  - 2 ^ 31 <= static_cast_int32 z < 2 ^ 31.
Proof.
  unfold static_cast_int32.
  pose proof (Z.mod_pos_bound (z + 2 ^ 31) (2 ^ 32) ltac:(lia)). lia.
Qed.

Lemma static_cast_int32_small (z : Z) :
  - 2 ^ 31 <= z < 2 ^ 31 -> static_cast_int32 z = z.
Proof.
  intro H. unfold static_cast_int32. rewrite Z.mod_small; lia.
Qed.

Lemma static_cast_int32_wraps (z k : Z) :
  static_cast_int32 (z + k * 2 ^ 32) = static_cast_int32 z.
Proof.
  unfold static_cast_int32.
  replace (z + k * 2 ^ 32 + 2 ^ 31) with (z + 2 ^ 31 + k * 2 ^ 32) by lia.
  now rewrite Z.mod_add by lia.
Qed.

Lemma catchup_image (nowMs : Z) (rm : ReplayMerge) (e : Env) (w : World) :
  m_image (run_members (catchup nowMs rm e w)) =
  m_image (catchup_resolve nowMs rm e).
Proof.
  unfold catchup.
  destruct (m_image (catchup_resolve nowMs rm e)) eqn:Himage; [| exact Himage].
  branches; exact Himage.
Qed.

(** X9. [catchup] with no image held: while the subscription is not
    connected it touches nothing; once it is connected and the replay image
    is not found, it still reports no work and holds no image, but it sets
    the progress clock to the time of the call and the last position to the
    sentinel. *)
Theorem catchup_without_an_image
    (nowMs : Z) (rm : ReplayMerge) (e : Env) (w : World) :
  m_image rm = None ->
  (isConnected e = false -> catchup nowMs rm e w = Done 0 rm w) /\
  (isConnected e = true ->
   imageBySessionId e (static_cast_int32 (m_replaySessionId rm)) = None ->
   catchup nowMs rm e w =
     Done 0 (set_positionOfLastProgress NULL_VALUE
               (set_timeOfLastProgressMs nowMs rm)) w).
Proof.
  intro Himage. split.
  - intro Hconnected. unfold catchup, catchup_resolve.
    now rewrite Himage, Hconnected, Himage.
  - intros Hconnected Hlookup. unfold catchup, catchup_resolve.
    rewrite Himage, Hconnected.
    cbn [m_replaySessionId set_timeOfLastProgressMs m_image set_image
         set_positionOfLastProgress].
    rewrite Hlookup. destruct rm; cbn in *; subst; reflexivity.
Qed.

(** X10. The image is looked up by the replay session id cast to 32 bits
    signed: an id in the 32-bit range is looked up as it is, and ids that
    differ by a multiple of 2^32 find the same image.  An image already held
    is never looked up again. *)
Theorem image_is_found_by_32_bit_session_id
    (nowMs : Z) (rm : ReplayMerge) (e : Env) (w : World) (k : Z) :
  isConnected e = true ->
  (m_image rm = None ->
   m_image (run_members (catchup nowMs rm e w)) =
     imageBySessionId e (static_cast_int32 (m_replaySessionId rm)) /\
   (- 2 ^ 31 <= m_replaySessionId rm < 2 ^ 31 ->
    m_image (run_members (catchup nowMs rm e w)) =
      imageBySessionId e (m_replaySessionId rm)) /\
   m_image (run_members
              (catchup nowMs
                 (set_replaySessionId (m_replaySessionId rm + k * 2 ^ 32) rm) e w)) =
     m_image (run_members (catchup nowMs rm e w))) /\
  (forall i, m_image rm = Some i ->
             m_image (run_members (catchup nowMs rm e w)) = Some i).
Proof.
  intro Hconnected. split.
  - intro Himage.
    assert (Hfound : forall rm0, m_image rm0 = None ->
              m_image (run_members (catchup nowMs rm0 e w)) =
              imageBySessionId e (static_cast_int32 (m_replaySessionId rm0))).
    { intros rm0 H0. rewrite catchup_image. unfold catchup_resolve.
      rewrite H0, Hconnected. reflexivity. }
    split; [| split].
    + now apply Hfound.
    + intro Hrange. rewrite Hfound by assumption.
      now rewrite static_cast_int32_small.
    + rewrite !Hfound by assumption.
      cbn [m_replaySessionId set_replaySessionId].
      now rewrite static_cast_int32_wraps.
  - intros i Himage. rewrite catchup_image.
    now rewrite (catchup_resolve_held nowMs rm e i Himage).
Qed.

(** X11. With an open image held short of the target, [catchup] reports no
    work and keeps the state; it records the furthest position seen, and
    sets the clock only when the image has advanced past it. *)
Theorem catchup_records_the_furthest_position
    (nowMs : Z) (rm : ReplayMerge) (e : Env) (w : World) (i : ImageId) :
  m_image rm = Some i ->
  isClosed (image e i) = false ->
  position (image e i) < m_nextTargetPosition rm ->
  let r := catchup nowMs rm e w in
  r = Done 0 (run_members r) w /\
  m_state (run_members r) = m_state rm /\
  m_positionOfLastProgress (run_members r) =
    Z.max (m_positionOfLastProgress rm) (position (image e i)) /\
  (m_positionOfLastProgress rm < position (image e i) ->
   m_timeOfLastProgressMs (run_members r) = nowMs) /\
  (position (image e i) <= m_positionOfLastProgress rm ->
   run_members r = rm).
Proof.
  intros Himage Hopen Hshort r. subst r. unfold catchup.
  rewrite (catchup_resolve_held nowMs rm e i Himage), Himage, Hopen.
  apply Z.leb_gt in Hshort. rewrite Hshort.
  destruct (Z.ltb_spec (m_positionOfLastProgress rm) (position (image e i)));
    cbn; repeat split; try lia; reflexivity.
Qed.

(** X12. [catchup] leaves CATCHUP exactly when the image it holds after the
    lookup has reached the target position, closed or not; it then reports
    work count 1, clears the correlation id and sets the clock. *)
Theorem catchup_ends_at_the_target
    (nowMs : Z) (rm : ReplayMerge) (e : Env) (w : World) :
  m_state rm = CATCHUP ->
  let r := catchup nowMs rm e w in
  (m_state (run_members r) = ATTEMPT_LIVE_JOIN <->
   exists i, m_image (catchup_resolve nowMs rm e) = Some i /\
             m_nextTargetPosition rm <= position (image e i)) /\
  (m_state (run_members r) = ATTEMPT_LIVE_JOIN ->
   r = Done 1 (run_members r) w /\
   m_activeCorrelationId (run_members r) = NULL_VALUE /\
   m_timeOfLastProgressMs (run_members r) = nowMs /\
   m_nextTargetPosition (run_members r) = m_nextTargetPosition rm).
Proof.
  intros Hstate r. subst r. unfold catchup.
  assert (Hkept : m_state (catchup_resolve nowMs rm e) = CATCHUP).
  { unfold catchup_resolve. branches; exact Hstate. }
  pose proof (catchup_resolve_target nowMs rm e) as Htarget.
  destruct (m_image (catchup_resolve nowMs rm e)) as [i |] eqn:Himage.
  - rewrite Htarget.
    destruct (Z.leb_spec (m_nextTargetPosition rm) (position (image e i))) as [Hle | Hlt].
    + cbn. split; [split |]; auto.
      intros _. exists i. auto.
    + assert (Hno : ~ exists i0, Some i = Some i0 /\
                       m_nextTargetPosition rm <= position (image e i0)).
      { intros (i0 & Hi & Hle). injection Hi as <-. lia. }
      destruct (isClosed (image e i));
        [| destruct (m_positionOfLastProgress (catchup_resolve nowMs rm e) <?
                     position (image e i))];
        cbn; rewrite ?Hkept; (split; [split |]); try discriminate;
        intro H; contradiction.
  - cbn. rewrite Hkept. split; [split |]; try discriminate.
    intros (i & Hi & _). discriminate Hi.
Qed.

End Catchup.

(** ** Joining the live stream *)

Section LiveJoin.
Context {decls : Declarations}.

(** X13. With an image held, a consumed response with a resolved position
    makes [attemptLiveJoin] try the two predicates in order on the image
    position: adding the live destination comes first and sends the machine
    back to CATCHUP with the live-added flag set; only when that predicate
    fails can the replay destination be removed and STOP_REPLAY entered;
    when both fail the machine goes back to CATCHUP with nothing called and
    the clock untouched. *)
Theorem join_predicates_are_tried_in_order
    (nowMs : Z) (rm : ReplayMerge) (e : Env) (w : World) (i : ImageId) :
  m_activeCorrelationId rm <> NULL_VALUE ->
  pollForResponse e (m_activeCorrelationId rm) = Returned true ->
  relevantId (controlResponsePoller e) <> NULL_POSITION ->
  m_image rm = Some i ->
  let polled := set_activeCorrelationId NULL_VALUE
                  (set_nextTargetPosition (relevantId (controlResponsePoller e)) rm) in
  let add := shouldAddLiveDestination polled e (position (image e i)) in
  let stop := shouldStopAndRemoveReplay polled e (position (image e i)) in
  (add = true ->
   attemptLiveJoin nowMs rm e w =
     Done 1 (state CATCHUP (set_isLiveAdded true (set_timeOfLastProgressMs nowMs polled)))
       (subscription_call (AddDestination (m_liveDestination rm)) w)) /\
  (add = false -> stop = true ->
   attemptLiveJoin nowMs rm e w =
     Done 1 (state STOP_REPLAY (set_timeOfLastProgressMs nowMs polled))
       (subscription_call (RemoveDestination (m_replayDestination rm)) w)) /\
  (add = false -> stop = false ->
   attemptLiveJoin nowMs rm e w = Done 1 (state CATCHUP polled) w).
Proof.
  intros Hactive Hconsumed Hresolved Himage polled add stop.
  assert (Hne : (NULL_POSITION =? relevantId (controlResponsePoller e)) = false)
    by (apply Z.eqb_neq; congruence).
  unfold attemptLiveJoin.
  rewrite (outstanding_test rm Hactive), Hconsumed.
  cbn [m_nextTargetPosition set_activeCorrelationId set_nextTargetPosition m_image].
  rewrite Hne, Himage. fold polled. fold add. fold stop.
  repeat split.
  - intro Hadd. now rewrite Hadd.
  - intros Hadd Hstop. now rewrite Hadd, Hstop.
  - intros Hadd Hstop. now rewrite Hadd, Hstop.
Qed.

(** X14. In ATTEMPT_LIVE_JOIN the destination calls and the members move
    together: the replay destination is removed exactly when the call
    enters STOP_REPLAY, and a call that adds the live destination sets the
    live-added flag and returns to CATCHUP.  No call does both. *)
Theorem destination_calls_follow_the_state
    (nowMs : Z) (rm : ReplayMerge) (e : Env) (w : World) :
  m_state rm = ATTEMPT_LIVE_JOIN ->
  let r := attemptLiveJoin nowMs rm e w in
  (m_state (run_members r) = STOP_REPLAY <->
   run_world r = subscription_call (RemoveDestination (m_replayDestination rm)) w) /\
  (run_world r = subscription_call (AddDestination (m_liveDestination rm)) w ->
   m_isLiveAdded (run_members r) = true /\ m_state (run_members r) = CATCHUP) /\
  (m_isLiveAdded (run_members r) = m_isLiveAdded rm \/
   run_world r = subscription_call (AddDestination (m_liveDestination rm)) w).
Proof.
  intros Hstate r. subst r.
  assert (Hw : forall c, subscription_call c w <> w).
  { intros c H. apply (f_equal destinationCalls) in H. cbn in H.
    symmetry in H. now apply not_own_tail in H. }
  assert (Hq : forall q c, enqueue q w <> subscription_call c w).
  { intros q c H. apply (f_equal requests) in H. cbn in H.
    symmetry in H. now apply not_own_tail in H. }
  member_cases.
  all: rewrite ?Hstate.
  all: split; [split | split].
  all: try discriminate.
  all: try reflexivity.
  all: auto.
  all: try (intro H; exfalso;
            first [ now apply (Hq _ _) in H
                  | symmetry in H; now apply (Hw _) in H
                  | apply (f_equal destinationCalls) in H; cbn in H;
                    discriminate H ]).
Qed.

End LiveJoin.

(** ** What no call changes *)

Section Frame.
Context {decls : Declarations}.

(** X15. The teardown changes nothing of the members but the state and the
    replay-active flag: an outstanding correlation id, the image, the target
    and the clock stay as they were.  The flag is cleared when the control
    connection is open and left as it was when the connection is closed or
    the machine was CLOSED already. *)
Theorem teardown_touches_state_and_flag_only
    (rm : ReplayMerge) (e : Env) (w : World) :
  let rm' := fst (ReplayMerge_delete rm e w) in
  rm' = set_state CLOSED (set_isReplayActive (m_isReplayActive rm') rm) /\
  m_isReplayActive rm' =
    (if negb (State_eqb CLOSED (m_state rm)) && negb (aeron_isClosed e)
     then false else m_isReplayActive rm).
Proof.
  unfold ReplayMerge_delete, archiveProxy, state.
  destruct rm as [? ? ? ? ? ? st ? ? ? ? ? ? ? active].
  destruct st, (aeron_isClosed e), active, (offer e); cbn; split; reflexivity.
Qed.

(** X16. No member function and no teardown changes what the constructor
    fixed: the replay channel, the two destinations, the recording id, the
    start position and the progress timeout. *)
Theorem configuration_is_never_changed
    (nowMs : Z) (rm : ReplayMerge) (e : Env) (w : World) :
  configuration (run_members (getRecordingPosition nowMs rm e w)) = configuration rm /\
  configuration (run_members (replay nowMs rm e w)) = configuration rm /\
  configuration (run_members (catchup nowMs rm e w)) = configuration rm /\
  configuration (run_members (attemptLiveJoin nowMs rm e w)) = configuration rm /\
  configuration (run_members (stopReplay rm e w)) = configuration rm /\
  configuration (fst (ReplayMerge_delete rm e w)) = configuration rm.
Proof.
  unfold configuration. repeat split; member_cases; reflexivity.
Qed.

(** X17. The live-added flag is never cleared and a held image is never
    dropped or replaced, by any member function or by the teardown; the
    replay session id is changed by [replay] alone. *)
Theorem flags_and_image_are_kept
    (nowMs : Z) (rm : ReplayMerge) (e : Env) (w : World) :
  keeps_flag_and_image rm (run_members (getRecordingPosition nowMs rm e w)) /\
  keeps_flag_and_image rm (run_members (replay nowMs rm e w)) /\
  keeps_flag_and_image rm (run_members (catchup nowMs rm e w)) /\
  keeps_flag_and_image rm (run_members (attemptLiveJoin nowMs rm e w)) /\
  keeps_flag_and_image rm (run_members (stopReplay rm e w)) /\
  keeps_flag_and_image rm (fst (ReplayMerge_delete rm e w)) /\
  m_replaySessionId (run_members (getRecordingPosition nowMs rm e w)) =
    m_replaySessionId rm /\
  m_replaySessionId (run_members (catchup nowMs rm e w)) = m_replaySessionId rm /\
  m_replaySessionId (run_members (attemptLiveJoin nowMs rm e w)) =
    m_replaySessionId rm /\
  m_replaySessionId (run_members (stopReplay rm e w)) = m_replaySessionId rm /\
  m_replaySessionId (fst (ReplayMerge_delete rm e w)) = m_replaySessionId rm.
Proof.
  unfold keeps_flag_and_image.
  repeat match goal with |- _ /\ _ => split end.
  all: try (intros i Himage; revert Himage).
  all: member_cases; try reflexivity; auto.
  all: intro Himage; rewrite ?Himage in *; congruence.
Qed.

(** X18. Work counts: [getRecordingPosition] reports 0, 1 or 2, and 2 only
    for a consumed response followed by an accepted request in the same
    call; every other member function reports 0 or 1. *)
Theorem work_count_is_bounded
    (nowMs : Z) (rm : ReplayMerge) (e : Env) (w : World) :
  (forall n rm' w',
     getRecordingPosition nowMs rm e w = Done n rm' w' ->
     0 <= n <= 2 /\
     (n = 2 ->
      pollForResponse e (m_activeCorrelationId rm) = Returned true /\
      relevantId (controlResponsePoller e) = NULL_POSITION /\
      offer e = true)) /\
  (forall r n rm' w',
     In r [replay nowMs rm e w; catchup nowMs rm e w;
           attemptLiveJoin nowMs rm e w; stopReplay rm e w] ->
     r = Done n rm' w' -> 0 <= n <= 1).
Proof.
  split.
  - intros n rm' w'. member_cases; intro H; try discriminate H;
      injection H as <- <- <-; (split; [lia |]); intro H2; try discriminate H2.
    repeat split; auto.
    match goal with H : (_ =? _) = true |- _ => apply Z.eqb_eq in H; auto end.
  - intros r n rm' w' Hin. cbn [In] in Hin.
    destruct Hin as [<- | [<- | [<- | [<- | []]]]];
      member_cases; intro H; try discriminate H; injection H as <- <- <-; lia.
Qed.

(** X19. Each member function, called in its own state, keeps the
    lifecycle invariant: the replay is active exactly from CATCHUP to
    STOP_REPLAY, CATCHUP and STOP_REPLAY and MERGED have no request
    outstanding, the target position is resolved in every state but the two
    that ask for it, and ATTEMPT_LIVE_JOIN and the states after it hold an
    image. *)
Theorem lifecycle_invariant_is_kept
    (nowMs : Z) (rm : ReplayMerge) (e : Env) (w : World) :
  lifecycle_invariant rm ->
  (m_state rm = GET_RECORDING_POSITION ->
   lifecycle_invariant (run_members (getRecordingPosition nowMs rm e w))) /\
  (m_state rm = REPLAY ->
   lifecycle_invariant (run_members (replay nowMs rm e w))) /\
  (m_state rm = CATCHUP ->
   lifecycle_invariant (run_members (catchup nowMs rm e w))) /\
  (m_state rm = ATTEMPT_LIVE_JOIN ->
   lifecycle_invariant (run_members (attemptLiveJoin nowMs rm e w))) /\
  (m_state rm = STOP_REPLAY ->
   lifecycle_invariant (run_members (stopReplay rm e w))).
Proof.
  unfold lifecycle_invariant. intro Hinv.
  repeat match goal with |- _ /\ _ => split end.
  all: intro Hstate; rewrite Hstate in Hinv.
  all: member_cases.
  all: rewrite ?Hstate.
  all: repeat match goal with
         | H : (_ =? _) = true |- _ => apply Z.eqb_eq in H
         | H : (_ =? _) = false |- _ => apply Z.eqb_neq in H
         | H : _ /\ _ |- _ => destruct H
         end.
  all: repeat split; try assumption; try congruence; try reflexivity;
       try (intro; congruence).
Qed.

End Frame.

(** ** The theorems on the concrete merge *)

Lemma scenario_start_is_constructed :
  @ReplayMerge_new scenario_declarations replay_channel "replay-dest" "live-dest"
    42 0 1000 (scenario_env 0 true quiet_poller 0 false) no_calls =
  (Returned (fst scenario_start), snd scenario_start).
Proof. reflexivity. Qed.

(** The states the concrete merge passes through, call by call, and its end
    in MERGED once the stop-replay request is accepted. *)
Example scenario_states :
  map (fun n => m_state (fst (@calls scenario_declarations
                                (firstn n to_stop_replay) scenario_start)))
      (seq 0 12) =
  [GET_RECORDING_POSITION; GET_RECORDING_POSITION; REPLAY; REPLAY; CATCHUP;
   CATCHUP; ATTEMPT_LIVE_JOIN; ATTEMPT_LIVE_JOIN; CATCHUP; ATTEMPT_LIVE_JOIN;
   ATTEMPT_LIVE_JOIN; STOP_REPLAY] /\
  m_state (fst (@calls scenario_declarations
                  [Step 11 (scenario_env 104 true quiet_poller 5000 false)]
                  at_stop_replay)) = MERGED /\
  destinationCalls (snd at_stop_replay) =
    [RemoveDestination "replay-dest"; AddDestination "live-dest";
     AddDestination "replay-dest"].
Proof. vm_compute. repeat split. Qed.

Lemma scenario_mints_real_ids :
  Forall (@mints_real_id scenario_declarations)
    (to_stop_replay ++ [Step 11 (scenario_env 104 true quiet_poller 5000 false)]).
Proof. repeat constructor; vm_compute; discriminate. Qed.

(** The error response to request 102 is thrown out of [attemptLiveJoin]. *)
Lemma error_response_is_fatal_witness :
  let rm := fst at_attempt_live_join in
  let w := snd at_attempt_live_join in
  let e := scenario_env 0 true (error_for 102 5) 5000 false in
  @attemptLiveJoin scenario_declarations 7 rm e w =
    Raise (ArchiveException 5
             "archive response for correlationId=102, error: unknown recording")
      rm w.
Proof.
  intros rm w e.
  refine (proj2 (proj2 (proj2
    (@error_response_is_fatal scenario_declarations 7 rm e w _ _ _ _ _ _))));
    vm_compute; solve [reflexivity | discriminate].
Defined.

(** A response to correlation id 999 while request 102 is outstanding. *)
Lemma unmatched_response_is_ignored_witness :
  let rm := fst at_attempt_live_join in
  let w := snd at_attempt_live_join in
  let e := scenario_env 0 true (response_for 999 5000) 5000 false in
  @attemptLiveJoin scenario_declarations 7 rm e w = Done 0 rm w.
Proof.
  intros rm w e.
  refine (proj2 (proj2 (proj2
    (@unmatched_response_is_ignored scenario_declarations 7 rm e w _ _ _ _))));
    [| | | right]; vm_compute; solve [reflexivity | discriminate].
Defined.

(** The response 5000 to request 102 with no image held. *)
Lemma live_join_without_image_loops_back_witness :
  let w := snd at_attempt_live_join in
  let e := scenario_env 0 true (response_for 102 5000) 5000 false in
  destinationCalls (run_world (@attemptLiveJoin scenario_declarations 7 join_without_image e w)) =
    destinationCalls w /\
  m_isLiveAdded (run_members (@attemptLiveJoin scenario_declarations 7 join_without_image e w)) =
    m_isLiveAdded join_without_image /\
  m_state (run_members (@attemptLiveJoin scenario_declarations 7 join_without_image e w)) =
    CATCHUP.
Proof.
  intros w e.
  refine (proj2
    (@live_join_without_image_loops_back scenario_declarations 7 join_without_image
       e w _ _ _ _ _ _ _ _ _));
    vm_compute; solve [reflexivity | discriminate].
Defined.

(** The image closes at position 3000, short of the target 5000. *)
Lemma closed_image_short_of_target_is_fatal_witness :
  let rm := fst at_catchup in
  let w := snd at_catchup in
  let e := scenario_env 0 true quiet_poller 3000 true in
  @catchup scenario_declarations 5 rm e w =
    Raise (TimeoutException "ReplayMerge Image closed unexpectedly.")
      (@catchup_resolve scenario_declarations 5 rm e) w.
Proof.
  intros rm w e.
  refine (proj1
    (@closed_image_short_of_target_is_fatal scenario_declarations 5 rm e w 7 _ _ _) _);
    vm_compute; reflexivity.
Defined.

(** The merge up to the accepted stop-replay request: four requests awaited,
    four responses consumed, none outstanding. *)
Lemma correlation_id_tracks_awaited_request_witness :
  let cs := (to_stop_replay ++ [Step 11 (scenario_env 104 true quiet_poller 5000 false)])%list in
  awaited_requests (snd (@calls scenario_declarations cs scenario_start)) =
    awaited_requests no_calls +
    @responses_consumed scenario_declarations cs scenario_start +
    @outstanding scenario_declarations
      (fst (@calls scenario_declarations cs scenario_start)).
Proof.
  intro cs.
  exact (proj1
    (@correlation_id_tracks_awaited_request scenario_declarations replay_channel
       "replay-dest" "live-dest" 42 0 1000 (scenario_env 0 true quiet_poller 0 false)
       no_calls (fst scenario_start) (snd scenario_start) cs
       scenario_start_is_constructed scenario_mints_real_ids)).
Defined.

(** The merge torn down in STOP_REPLAY, then torn down again. *)
Lemma teardown_is_idempotent_and_removes_once_witness :
  let e := scenario_env 104 true quiet_poller 5000 false in
  let cs := (to_stop_replay ++ [Close e; Close e])%list in
  removals_of "replay-dest" (snd (@calls scenario_declarations cs scenario_start)) <=
    removals_of "replay-dest" no_calls + 1 /\
  stop_replay_requests (snd (@calls scenario_declarations cs scenario_start)) <=
    stop_replay_requests no_calls + 1.
Proof.
  intros e cs.
  exact (proj2 (proj2 (proj2 (proj2 (proj2
    (@teardown_is_idempotent_and_removes_once scenario_declarations replay_channel
       "replay-dest" "live-dest" 42 0 1000 (scenario_env 0 true quiet_poller 0 false)
       no_calls (fst scenario_start) (snd scenario_start) cs
       scenario_start_is_constructed)))))).
Defined.

(** ** Where the readings fail *)

(** C2. In STOP_REPLAY the proxy accepts the stop-replay request 104; the
    request is in the world and [m_activeCorrelationId] is the sentinel. *)
Lemma stop_replay_request_is_not_tracked :
  ~ @accepted_request_is_tracked scenario_declarations.
Proof.
  intro H.
  refine (H replay_channel "replay-dest" "live-dest" 42 0 1000
            (scenario_env 0 true quiet_poller 0 false) no_calls
            (fst scenario_start) (snd scenario_start) to_stop_replay 11
            (scenario_env 104 true quiet_poller 5000 false)
            scenario_start_is_constructed scenario_mints_real_ids _ _).
  - vm_compute. discriminate.
  - vm_compute. reflexivity.
Qed.

(** C3. In STOP_REPLAY, with nothing on the poller, the accepted request
    alone takes the machine to MERGED. *)
Lemma merged_without_a_response :
  ~ merged_only_after_response.
Proof.
  intro H.
  destruct (H (fst at_stop_replay) (scenario_env 104 true quiet_poller 5000 false)
              (snd at_stop_replay)) as [Hpoll _];
    [vm_compute; reflexivity | vm_compute; reflexivity |].
  vm_compute in Hpoll. discriminate Hpoll.
Qed.

(** C7. In CATCHUP the image closes at position 5000, the target: the call
    returns and the machine moves on. *)
Lemma closed_image_at_target_is_not_fatal :
  ~ @closed_image_always_fatal scenario_declarations.
Proof.
  intro H.
  destruct (H 5 (fst at_catchup) (scenario_env 0 true quiet_poller 5000 true)
              (snd at_catchup) 7) as (ex & rm' & w' & Hthrow);
    [vm_compute; reflexivity | vm_compute; reflexivity | vm_compute; reflexivity |].
  vm_compute in Hthrow. discriminate Hthrow.
Qed.

(** C8. In ATTEMPT_LIVE_JOIN the response to request 102 is consumed at time
    5000 with the image 4000 short of the new target: neither destination
    call is due, the clock stays at 6, and [checkProgress] at 5000 throws. *)
Lemma consumed_response_without_refresh :
  ~ @matched_response_refreshes_clock scenario_declarations.
Proof.
  intro H.
  specialize (H 5000 (fst at_attempt_live_join)
                (scenario_env 0 true (response_for 102 9000) 5000 false)
                (snd at_attempt_live_join)).
  vm_compute in H.
  assert (Hthrow : Threw (A := unit)
                     (TimeoutException "ReplayMerge no progress state=2") =
                   Returned tt).
  { apply H; [discriminate | reflexivity]. }
  discriminate Hthrow.
Qed.

(** ** Further calls on the concrete merge *)

(** Request 102 is outstanding and the poller is quiet. *)
Lemma no_completed_response_is_no_work_witness :
  let rm := fst at_attempt_live_join in
  let w := snd at_attempt_live_join in
  let e := scenario_env 0 true quiet_poller 5000 false in
  @attemptLiveJoin scenario_declarations 7 rm e w = Done 0 rm w.
Proof.
  intros rm w e.
  refine (proj2 (proj2 (proj2
    (@no_completed_response_is_no_work scenario_declarations 7 rm e w _ _))));
    [vm_compute; discriminate | right; reflexivity].
Defined.

(** The first request of the merge, declined by the proxy. *)
Lemma declined_request_changes_nothing_witness :
  let rm := fst scenario_start in
  let w := snd scenario_start in
  let e := scenario_env 100 false quiet_poller 0 false in
  @getRecordingPosition scenario_declarations 0 rm e w = Done 0 rm w.
Proof.
  intros rm w e.
  refine (proj1
    (@declined_request_changes_nothing scenario_declarations 0 rm e w _ _));
    reflexivity.
Defined.

(** The first request of the merge, accepted: work count 1 and the request
    in the world. *)
Lemma work_count_reports_the_exchange_witness :
  let rm := fst scenario_start in
  let w := snd scenario_start in
  let e := scenario_env 100 true quiet_poller 0 false in
  let r := @getRecordingPosition scenario_declarations 0 rm e w in
  requests (run_world r) <> requests w \/
  (m_activeCorrelationId rm <> @NULL_VALUE scenario_declarations /\
   pollForResponse e (m_activeCorrelationId rm) = Returned true).
Proof.
  intros rm w e r.
  refine (proj2
    (@work_count_reports_the_exchange scenario_declarations 0 rm e w r 1
       (run_members r) (run_world r) _ _) _);
    [left; reflexivity | vm_compute; reflexivity | reflexivity].
Defined.

(** The response 5000 to request 100 resolves the recording position. *)
Lemma recording_position_resolved_before_replay_witness :
  let rm := fst awaiting_position in
  let w := snd awaiting_position in
  let e := scenario_env 0 true (response_for 100 5000) 0 false in
  m_state (run_members (@getRecordingPosition scenario_declarations 1 rm e w)) = REPLAY <->
  m_activeCorrelationId rm <> @NULL_VALUE scenario_declarations /\
  pollForResponse e (m_activeCorrelationId rm) = Returned true /\
  relevantId (controlResponsePoller e) <> @NULL_POSITION scenario_declarations.
Proof.
  intros rm w e.
  refine (proj1
    (@recording_position_resolved_before_replay scenario_declarations 1 rm e w _));
    vm_compute; reflexivity.
Defined.

(** The response to request 102 leaves the position unknown. *)
Lemma unknown_position_is_asked_again_witness :
  let rm := fst at_attempt_live_join in
  let w := snd at_attempt_live_join in
  let e := scenario_env 103 true (response_for 102 (-1)) 5000 false in
  @attemptLiveJoin scenario_declarations 7 rm e w =
    (if offer e
     then Done 1
            (set_activeCorrelationId (nextCorrelationId e)
               (set_timeOfLastProgressMs 7
                  (set_activeCorrelationId (@NULL_VALUE scenario_declarations)
                     (set_nextTargetPosition (@NULL_POSITION scenario_declarations) rm))))
            (enqueue (GetRecordingPositionRequest (m_recordingId rm)
                        (nextCorrelationId e) (controlSessionId e)) w)
     else Done 1
            (set_activeCorrelationId (@NULL_VALUE scenario_declarations)
               (set_nextTargetPosition (@NULL_POSITION scenario_declarations) rm))
            w).
Proof.
  intros rm w e.
  refine (proj2
    (@unknown_position_is_asked_again scenario_declarations 7 rm e w _ _ _));
    vm_compute; solve [reflexivity | discriminate].
Defined.

(** The response 7 to the replay request 101. *)
Lemma replay_response_starts_catchup_witness :
  let rm := fst awaiting_replay in
  let w := snd awaiting_replay in
  let e := scenario_env 0 true (response_for 101 7) 0 false in
  m_state (run_members (@replay scenario_declarations 3 rm e w)) = CATCHUP <->
  m_activeCorrelationId rm <> @NULL_VALUE scenario_declarations /\
  pollForResponse e (m_activeCorrelationId rm) = Returned true.
Proof.
  intros rm w e.
  refine (proj1
    (@replay_response_starts_catchup scenario_declarations 3 rm e w _));
    vm_compute; reflexivity.
Defined.

(** The replay has started and the subscription is not connected yet. *)
Lemma catchup_without_an_image_witness :
  @catchup scenario_declarations 4 (fst replay_started) disconnected_env
    (snd replay_started) =
  Done 0 (fst replay_started) (snd replay_started).
Proof.
  refine (proj1
    (@catchup_without_an_image scenario_declarations 4 (fst replay_started)
       disconnected_env (snd replay_started) _) _);
    vm_compute; reflexivity.
Defined.

(** The replay session id 7 and the id 7 + 2^32 find the same image. *)
Lemma image_is_found_by_32_bit_session_id_witness :
  let rm := fst replay_started in
  let w := snd replay_started in
  let e := scenario_env 0 true quiet_poller 3000 false in
  m_image (run_members
             (@catchup scenario_declarations 4
                (set_replaySessionId (m_replaySessionId rm + 1 * 2 ^ 32) rm) e w)) =
    m_image (run_members (@catchup scenario_declarations 4 rm e w)).
Proof.
  intros rm w e.
  refine (proj2 (proj2 (proj1
    (@image_is_found_by_32_bit_session_id scenario_declarations 4 rm e w 1 _) _)));
    vm_compute; reflexivity.
Defined.

(** The image advances from 3000 to 4000, short of the target 5000. *)
Lemma catchup_records_the_furthest_position_witness :
  let rm := fst at_catchup in
  let w := snd at_catchup in
  let e := scenario_env 0 true quiet_poller 4000 false in
  m_positionOfLastProgress (run_members (@catchup scenario_declarations 5 rm e w)) =
    Z.max (m_positionOfLastProgress rm) (position (image e 7)).
Proof.
  intros rm w e.
  refine (proj1 (proj2 (proj2
    (@catchup_records_the_furthest_position scenario_declarations 5 rm e w 7 _ _ _))));
    vm_compute; reflexivity.
Defined.

(** The image reaches the target 5000. *)
Lemma catchup_ends_at_the_target_witness :
  let rm := fst at_catchup in
  let w := snd at_catchup in
  let e := scenario_env 0 true quiet_poller 5000 false in
  m_state (run_members (@catchup scenario_declarations 5 rm e w)) = ATTEMPT_LIVE_JOIN <->
  exists i, m_image (@catchup_resolve scenario_declarations 5 rm e) = Some i /\
            m_nextTargetPosition rm <= position (image e i).
Proof.
  intros rm w e.
  refine (proj1
    (@catchup_ends_at_the_target scenario_declarations 5 rm e w _));
    vm_compute; reflexivity.
Defined.

(** The image closes at 3000: the exception names the closed image. *)
Lemma catchup_throws_only_for_closed_image_witness :
  let rm := fst at_catchup in
  let w := snd at_catchup in
  let e := scenario_env 0 true quiet_poller 3000 true in
  TimeoutException "ReplayMerge Image closed unexpectedly." =
    TimeoutException "ReplayMerge Image closed unexpectedly." /\
  exists i, m_image rm = Some i /\ isClosed (image e i) = true /\
            position (image e i) < m_nextTargetPosition rm.
Proof.
  intros rm w e.
  refine (@catchup_throws_only_for_closed_image scenario_declarations 5 rm e w
            _ rm w _);
    vm_compute; reflexivity.
Defined.

(** The response 5000 to request 102 with the image at 5000: the live
    destination is added. *)
Lemma join_predicates_are_tried_in_order_witness :
  let rm := fst at_attempt_live_join in
  let w := snd at_attempt_live_join in
  let e := scenario_env 0 true (response_for 102 5000) 5000 false in
  let polled := set_activeCorrelationId (@NULL_VALUE scenario_declarations)
                  (set_nextTargetPosition (relevantId (controlResponsePoller e)) rm) in
  @attemptLiveJoin scenario_declarations 7 rm e w =
    Done 1 (state CATCHUP (set_isLiveAdded true (set_timeOfLastProgressMs 7 polled)))
      (subscription_call (AddDestination (m_liveDestination rm)) w).
Proof.
  intros rm w e polled.
  refine (proj1
    (@join_predicates_are_tried_in_order scenario_declarations 7 rm e w 7 _ _ _ _) _);
    vm_compute; solve [reflexivity | discriminate].
Defined.

(** The same call: the live destination is added, the flag set. *)
Lemma destination_calls_follow_the_state_witness :
  let rm := fst at_attempt_live_join in
  let w := snd at_attempt_live_join in
  let e := scenario_env 0 true (response_for 102 5000) 5000 false in
  let r := @attemptLiveJoin scenario_declarations 7 rm e w in
  m_state (run_members r) = STOP_REPLAY <->
  run_world r = subscription_call (RemoveDestination (m_replayDestination rm)) w.
Proof.
  intros rm w e r.
  refine (proj1
    (@destination_calls_follow_the_state scenario_declarations 7 rm e w _));
    vm_compute; reflexivity.
Defined.

(** The invariant holds in ATTEMPT_LIVE_JOIN of the concrete merge and after
    the call that removes the replay destination. *)
Lemma lifecycle_invariant_is_kept_witness :
  let rm := fst (@calls scenario_declarations (firstn 10 to_stop_replay) scenario_start) in
  let w := snd (@calls scenario_declarations (firstn 10 to_stop_replay) scenario_start) in
  let e := scenario_env 0 true (response_for 103 5000) 5000 false in
  @lifecycle_invariant scenario_declarations
    (run_members (@attemptLiveJoin scenario_declarations 10 rm e w)).
Proof.
  intros rm w e.
  refine (proj1 (proj2 (proj2 (proj2
    (@lifecycle_invariant_is_kept scenario_declarations 10 rm e w _)))) _).
  - vm_compute. repeat split; discriminate.
  - vm_compute. reflexivity.
Defined.
